(** * runbot/container.py: helpers that containerize builds with Docker

    A shallow embedding of [runbot/container.py] and the properties of its
    command construction, lock probe, container stopper, image builder and
    self-test driver.

    The module is glue around the [docker] command-line tool.  The pure part
    (the shell string and the argument vectors) is embedded as functions on
    strings and lists of strings.  The effectful part is embedded in a state
    and exception monad over a record [World] that holds the file system, the
    descriptor table, the advisory locks, the children of the process, the
    logger and the list of calls made to the operating system. *)

From Stdlib Require Import String Ascii List ZArith Bool Lia DecimalString.
Import ListNotations.
Open Scope string_scope.
Open Scope Z_scope.
Open Scope list_scope.

Set Implicit Arguments.

(** String concatenation is written [+++]; [++] stays the append of lists. *)
Infix "+++" := String.append (right associativity, at level 60) : string_scope.

(** The double quote character, as a string. *)
Definition dquote : string := String (ascii_of_nat 34) EmptyString.

(** ** Python values reaching the optional arguments *)

(** [exposed_port] and [cpu_limit] default to [None]; the callers pass an
    integer ([cpu_limit=300]) or a string ([sys.argv[3]]). *)
Inductive pyval : Type :=
| PyNone
| PyInt (z : Z)
| PyStr (s : string).

(** Truth value testing, as performed by [if exposed_port:]. *)
Definition truthy (v : pyval) : bool :=
  match v with
  | PyNone => false
  | PyInt z => negb (z =? 0)
  | PyStr s => negb (String.eqb s EmptyString)
  end.

(** Decimal rendering of an integer, [str(z)]. *)
Definition str_of_Z (z : Z) : string :=
  NilZero.string_of_int (Z.to_int z).

(** ['%s' % v]. *)
Definition py_str (v : pyval) : string :=
  match v with
  | PyNone => "None"
  | PyInt z => str_of_Z z
  | PyStr s => s
  end.

(** ** Paths *)

Fixpoint ends_with_slash (s : string) : bool :=
  match s with
  | EmptyString => false
  | String c rest =>
      match rest with
      | EmptyString => Ascii.eqb c "/"
      | String _ _ => ends_with_slash rest
      end
  end.

Definition has_slash (s : string) : bool :=
  existsb (Ascii.eqb "/") (list_ascii_of_string s).

Definition starts_with_slash (s : string) : bool :=
  match s with
  | String c _ => Ascii.eqb c "/"
  | EmptyString => false
  end.

(** [os.path.join(a, b)] of posixpath: an absolute [b] replaces [a]; an
    empty [a] or one that ends with a separator is extended directly. *)
Definition path_join (a b : string) : string :=
  if starts_with_slash b then b
  else if (String.eqb a EmptyString || ends_with_slash a)%bool then a +++ b
  else a +++ "/" +++ b.

(** [os.path.basename(p)]: what follows the last separator. *)
Fixpoint basename (p : string) : string :=
  match p with
  | EmptyString => EmptyString
  | String c rest =>
      if Ascii.eqb c "/" then basename rest
      else if has_slash rest then basename rest
      else p
  end.

(** ** The command run inside the container (lines 39-43) *)

(** [cmd_chain] after its three [append]s. *)
Definition cmd_chain (odoo_cmd : list string) : list string :=
  [ "cd /data/build";
    "head -1 odoo-bin | grep -q python3 && sudo pip3 install -r requirements.txt || sudo pip install -r requirements.txt";
    String.concat " " odoo_cmd ].

(** [run_cmd = ' && '.join(cmd_chain)]. *)
Definition run_cmd (odoo_cmd : list string) : string :=
  String.concat " && " (cmd_chain odoo_cmd).

(** ** The launch argument vector (lines 54-64) *)

Definition docker_command (build_dir container_name : string)
           (exposed_port cpu_limit : pyval) (run_cmd : string) : list string :=
  let docker_command :=
    [ "docker"; "run"; "--rm";
      "--name"; container_name;
      "--volume=/var/run/postgresql:/var/run/postgresql";
      "--volume=" +++ build_dir +++ ":/data/build" ] in
  let docker_command :=
    if truthy exposed_port
    then docker_command ++ ["-p"; "127.0.0.1:" +++ py_str exposed_port +++ ":8069"]
    else docker_command in
  let docker_command :=
    if truthy cpu_limit
    then docker_command ++ ["--ulimit"; "cpu=" +++ py_str cpu_limit]
    else docker_command in
  docker_command ++ ["odoo:runbot_tests"; "/bin/bash"; "-c"; run_cmd].

(** ** The world outside the process *)

(** Everything the module cannot decide itself: the clock, the login name,
    what other processes and the container engine do while this process
    sleeps, the outcome of an external command that is run to completion,
    and which processes are still alive. *)
Class Environment : Type := {
  env_state : Type;
  (** [%(asctime)s] of a log record made now *)
  asctime : env_state -> string;
  (** [datetime.datetime.now().microsecond] *)
  microsecond : env_state -> Z;
  (** [os.getlogin()]; [None] when there is no login name ([OSError]) *)
  getlogin : env_state -> option string;
  (** the world after [secs] seconds in which this process did nothing *)
  elapse : Z -> env_state -> env_state;
  (** an external command with its working directory, run until it exits:
      its exit status and what it did to the world *)
  exec : list string -> option string -> env_state -> Z * env_state;
  (** the world once a child with this identifier was started on this
      command and left to run *)
  spawned : Z -> list string -> env_state -> env_state;
  (** is the process with this identifier still alive *)
  alive : env_state -> Z -> bool;
  (** is a container of this name currently running in the engine *)
  container_running : env_state -> string -> bool
}.

(** ** Exceptions and outcomes *)

Inductive exn : Type :=
| OSError
| SubprocessError
| CalledProcessError (returncode : Z) (cmd : list string)
| SystemExit (code : Z).

Inductive outcome (A : Type) : Type :=
| Return (a : A)
| Raise (e : exn)
| OutOfFuel.
Arguments Raise {A} e.
Arguments OutOfFuel {A}.

(** ** Logging *)

Inductive level : Type := DEBUG | INFO | WARNING | ERROR.

Definition levelno (l : level) : Z :=
  match l with DEBUG => 10 | INFO => 20 | WARNING => 30 | ERROR => 40 end.

Definition levelname (l : level) : string :=
  match l with
  | DEBUG => "DEBUG" | INFO => "INFO" | WARNING => "WARNING" | ERROR => "ERROR"
  end.

Definition NOTSET : Z := 0.

Inductive formatter : Type :=
| FormatMessage                 (* the default, '%(message)s' *)
| FormatAsctimeLevelNameMessage (* '%(asctime)s %(levelname)s %(name)s: %(message)s' *).

(** A [logging.StreamHandler()]: it writes to the standard error stream. *)
Record Handler : Type := mkHandler {
  h_level : Z;
  h_formatter : formatter
}.

Definition StreamHandler : Handler := mkHandler NOTSET FormatMessage.

Definition handler_setLevel (n : Z) (h : Handler) : Handler :=
  mkHandler n (h_formatter h).

Definition handler_setFormatter (f : formatter) (h : Handler) : Handler :=
  mkHandler (h_level h) f.

(** The module-level [_logger = logging.getLogger(__name__)].  Only its own
    handlers are modelled; [lg_inherited] is the level it inherits while its
    own level is [NOTSET]. *)
Record Logger : Type := mkLogger {
  lg_name : string;
  lg_level : Z;
  lg_inherited : Z;
  lg_handlers : list Handler
}.

Definition getEffectiveLevel (lg : Logger) : Z :=
  if lg_level lg =? NOTSET then lg_inherited lg else lg_level lg.

Definition format (f : formatter) (time name : string) (l : level) (message : string) : string :=
  match f with
  | FormatMessage => message
  | FormatAsctimeLevelNameMessage =>
      time +++ " " +++ levelname l +++ " " +++ name +++ ": " +++ message
  end.

(** The lines the handlers of [lg] write for one record. *)
Definition emit (lg : Logger) (time : string) (l : level) (message : string) : list string :=
  if levelno l <? getEffectiveLevel lg then []
  else map (fun h => format (h_formatter h) time (lg_name lg) l message)
           (filter (fun h => h_level h <=? levelno l) (lg_handlers lg)).

(** ** Calls to the operating system *)

Inductive call : Type :=
| Call_open (path mode : string)
| Call_makedirs (path : string) (exist_ok : bool)
| Call_copy (src dst : string)
| Call_run (args : list string) (cwd : option string) (check : bool)
| Call_Popen (args : list string) (stdout stderr : Z) (preexec : bool) (close_fds : bool)
| Call_os_open (path : string) (flags mode : Z)
| Call_set_inheritable (fd : Z) (inheritable : bool)
| Call_lockf (fd : Z) (cmd : Z)
| Call_close (fd : Z)
| Call_closerange (fd_low fd_high : Z)
| Call_setsid
| Call_sleep (secs : Z).

(** A child started with [subprocess.Popen] and not waited for. *)
Record Child : Type := mkChild {
  c_pid : Z;
  c_args : list string;
  c_stdout : Z;
  c_stderr : Z;
  c_close_fds : bool
}.

Definition O_RDWR : Z := 2.
Definition O_CREAT : Z := 64.
Definition LOCK_EX : Z := 2.
Definition LOCK_NB : Z := 4.

(** [hasattr(os, 'set_inheritable')]: the module needs Python 3
    ([exist_ok], [subprocess.run]), where the attribute exists. *)
Definition has_set_inheritable : bool := true.

Definition mem (s : string) (l : list string) : bool :=
  existsb (String.eqb s) l.

(** ** Files *)

Fixpoint read_file (files : list (string * string)) (path : string) : option string :=
  match files with
  | [] => None
  | (p, content) :: rest => if String.eqb p path then Some content else read_file rest path
  end.

Definition is_file (files : list (string * string)) (path : string) : bool :=
  match read_file files path with Some _ => true | None => false end.

Definition write_file (files : list (string * string)) (path content : string)
  : list (string * string) :=
  (path, content) :: filter (fun e => negb (String.eqb (fst e) path)) files.

(** ** Descriptors *)

Fixpoint lowest_from (n : nat) (start : Z) (used : list Z) : Z :=
  match n with
  | O => start
  | S n' => if existsb (Z.eqb start) used then lowest_from n' (start + 1) used else start
  end.

(** The lowest descriptor that is not open, as the kernel allots it. *)
Definition lowest_fd (fds : list (Z * string)) : Z :=
  lowest_from (length fds) 0 (map fst fds).

Fixpoint fd_path (fds : list (Z * string)) (fd : Z) : option string :=
  match fds with
  | [] => None
  | (n, p) :: rest => if n =? fd then Some p else fd_path rest fd
  end.

Definition drop_fd (fds : list (Z * string)) (fd : Z) : list (Z * string) :=
  filter (fun e => negb (fst e =? fd)) fds.

Section WithEnvironment.

Context {E : Environment}.

(** ** The state of the process and of what it shares with others *)

Record World : Type := mkWorld {
  (** file system: directories, regular files with their content, and the
      paths at which this process may neither open nor create anything *)
  dirs : list string;
  files : list (string * string);
  denied : list string;
  (** executables found on the search path *)
  programs : list string;
  (** descriptors open in this process, with the file each one is on *)
  fds : list (Z * string);
  (** [os.sysconf("SC_OPEN_MAX")] *)
  open_max : Z;
  (** this process, the children it started, the next identifier the kernel
      hands out *)
  pid : Z;
  children : list Child;
  next_pid : Z;
  (** advisory exclusive locks: file and holder *)
  locks : list (string * Z);
  (** [os.path.dirname(__file__)] *)
  module_dir : string;
  logger : Logger;
  stderr : list string;
  (** the calls made by this process, oldest first *)
  calls : list call;
  env : env_state
}.

Definition set_dirs (d : list string) (w : World) : World :=
  mkWorld d (files w) (denied w) (programs w) (fds w) (open_max w) (pid w)
          (children w) (next_pid w) (locks w) (module_dir w) (logger w)
          (stderr w) (calls w) (env w).

Definition set_files (f : list (string * string)) (w : World) : World :=
  mkWorld (dirs w) f (denied w) (programs w) (fds w) (open_max w) (pid w)
          (children w) (next_pid w) (locks w) (module_dir w) (logger w)
          (stderr w) (calls w) (env w).

Definition set_fds (f : list (Z * string)) (w : World) : World :=
  mkWorld (dirs w) (files w) (denied w) (programs w) f (open_max w) (pid w)
          (children w) (next_pid w) (locks w) (module_dir w) (logger w)
          (stderr w) (calls w) (env w).

Definition set_pid (p : Z) (w : World) : World :=
  mkWorld (dirs w) (files w) (denied w) (programs w) (fds w) (open_max w) p
          (children w) (next_pid w) (locks w) (module_dir w) (logger w)
          (stderr w) (calls w) (env w).

Definition set_children (c : list Child) (w : World) : World :=
  mkWorld (dirs w) (files w) (denied w) (programs w) (fds w) (open_max w) (pid w)
          c (next_pid w) (locks w) (module_dir w) (logger w)
          (stderr w) (calls w) (env w).

Definition set_next_pid (n : Z) (w : World) : World :=
  mkWorld (dirs w) (files w) (denied w) (programs w) (fds w) (open_max w) (pid w)
          (children w) n (locks w) (module_dir w) (logger w)
          (stderr w) (calls w) (env w).

Definition set_locks (l : list (string * Z)) (w : World) : World :=
  mkWorld (dirs w) (files w) (denied w) (programs w) (fds w) (open_max w) (pid w)
          (children w) (next_pid w) l (module_dir w) (logger w)
          (stderr w) (calls w) (env w).

Definition set_logger (lg : Logger) (w : World) : World :=
  mkWorld (dirs w) (files w) (denied w) (programs w) (fds w) (open_max w) (pid w)
          (children w) (next_pid w) (locks w) (module_dir w) lg
          (stderr w) (calls w) (env w).

Definition set_stderr (l : list string) (w : World) : World :=
  mkWorld (dirs w) (files w) (denied w) (programs w) (fds w) (open_max w) (pid w)
          (children w) (next_pid w) (locks w) (module_dir w) (logger w)
          l (calls w) (env w).

Definition set_calls (c : list call) (w : World) : World :=
  mkWorld (dirs w) (files w) (denied w) (programs w) (fds w) (open_max w) (pid w)
          (children w) (next_pid w) (locks w) (module_dir w) (logger w)
          (stderr w) c (env w).

Definition set_env (e : env_state) (w : World) : World :=
  mkWorld (dirs w) (files w) (denied w) (programs w) (fds w) (open_max w) (pid w)
          (children w) (next_pid w) (locks w) (module_dir w) (logger w)
          (stderr w) (calls w) e.

Definition record_call (c : call) (w : World) : World :=
  set_calls (calls w ++ [c]) w.

(** ** The monad of the module's code: state and exceptions *)

Definition M (A : Type) : Type := World -> outcome A * World.

Definition ret {A : Type} (a : A) : M A := fun w => (Return a, w).

Definition raise {A : Type} (e : exn) : M A := fun w => (Raise e, w).

Definition bind {A B : Type} (m : M A) (k : A -> M B) : M B :=
  fun w =>
    match m w with
    | (Return a, w') => k a w'
    | (Raise e, w') => (Raise e, w')
    | (OutOfFuel, w') => (OutOfFuel, w')
    end.

(** [try: m  except <the exceptions h accepts>: h e]. *)
Definition try_except {A : Type} (m : M A) (h : exn -> option (M A)) : M A :=
  fun w =>
    match m w with
    | (Raise e, w') => match h e with
                       | Some handler => handler w'
                       | None => (Raise e, w')
                       end
    | r => r
    end.

(** [try: m  finally: f]: [f] runs whatever [m] did; when [f] itself raises,
    its exception replaces the outcome of [m]. *)
Definition try_finally {A : Type} (m : M A) (f : M unit) : M A :=
  fun w =>
    match m w with
    | (OutOfFuel, w') => (OutOfFuel, w')
    | (r, w') => match f w' with
                 | (Return _, w'') => (r, w'')
                 | (Raise e, w'') => (Raise e, w'')
                 | (OutOfFuel, w'') => (OutOfFuel, w'')
                 end
    end.

Definition except_OSError {A : Type} (handler : M A) (e : exn) : option (M A) :=
  match e with OSError => Some handler | _ => None end.

Definition except_CalledProcessError {A : Type} (handler : M A) (e : exn) : option (M A) :=
  match e with CalledProcessError _ _ => Some handler | _ => None end.

End WithEnvironment.

Declare Scope monad_scope.
Delimit Scope monad_scope with monad.
Notation "x <- m ;; k" := (bind m (fun x => k))
  (at level 61, m at next level, right associativity) : monad_scope.
Notation "m ;; k" := (bind m (fun _ => k))
  (at level 61, right associativity) : monad_scope.
Open Scope monad_scope.

Section Primitives.

Context {E : Environment}.

(** ** Library calls used by the module *)

(** [_logger.debug], [_logger.info], [_logger.warning], [_logger.error]
    with the message already formatted. *)
Definition logger_log (l : level) (message : string) : M unit :=
  fun w =>
    (Return tt,
     set_stderr (stderr w ++ emit (logger w) (asctime (env w)) l message) w).

Definition logger_setLevel (n : Z) : M unit :=
  fun w =>
    let lg := logger w in
    (Return tt,
     set_logger (mkLogger (lg_name lg) n (lg_inherited lg) (lg_handlers lg)) w).

Definition logger_addHandler (h : Handler) : M unit :=
  fun w =>
    let lg := logger w in
    (Return tt,
     set_logger (mkLogger (lg_name lg) (lg_level lg) (lg_inherited lg)
                          (lg_handlers lg ++ [h])) w).

(** [open(path, 'w')]: the file is created or truncated; the descriptor of
    the file object is returned. *)
Definition open_w (path : string) : M Z :=
  fun w =>
    let w := record_call (Call_open path "w") w in
    if (mem path (denied w) || mem path (dirs w))%bool then (Raise OSError, w)
    else
      let fd := lowest_fd (fds w) in
      (Return fd,
       set_fds ((fd, path) :: fds w) (set_files (write_file (files w) path EmptyString) w)).

(** [os.makedirs(path, exist_ok=...)].  Only [path] itself is tracked, not
    the intermediate directories it may create on the way. *)
Definition os_makedirs (path : string) (exist_ok : bool) : M unit :=
  fun w =>
    let w := record_call (Call_makedirs path exist_ok) w in
    if mem path (dirs w) then
      if exist_ok then (Return tt, w) else (Raise OSError, w)
    else if (mem path (denied w) || is_file (files w) path)%bool then (Raise OSError, w)
    else (Return tt, set_dirs (path :: dirs w) w).

(** [shutil.copy(src, dst)]: into [dst] when it is a directory, under the
    base name of [src]; the path written is returned. *)
Definition shutil_copy (src dst : string) : M string :=
  fun w =>
    let w := record_call (Call_copy src dst) w in
    match read_file (files w) src with
    | None => (Raise OSError, w)
    | Some content =>
        let target := if mem dst (dirs w) then path_join dst (basename src) else dst in
        if (mem src (denied w) || mem target (denied w) || mem target (dirs w)
            || String.eqb target src)%bool
        then (Raise OSError, w)
        else (Return target, set_files (write_file (files w) target content) w)
    end.

Definition cwd_exists (cwd : option string) (w : World) : bool :=
  match cwd with
  | None => true
  | Some d => mem d (dirs w)
  end.

(** [subprocess.run(args, cwd=cwd, check=check)]: the command is started and
    waited for; its return code is the result.  [pipe_stderr] is
    [stderr=subprocess.PIPE]. *)
Definition subprocess_run (args : list string) (cwd : option string)
           (pipe_stderr check : bool) : M Z :=
  fun w =>
    let w := record_call (Call_run args cwd check) w in
    if negb (cwd_exists cwd w) then (Raise OSError, w)
    else if negb (mem (hd EmptyString args) (programs w)) then (Raise OSError, w)
    else
      let (returncode, e) := exec args cwd (env w) in
      let w := set_env e w in
      if (check && negb (returncode =? 0))%bool
      then (Raise (CalledProcessError returncode args), w)
      else (Return returncode, w).

Definition unlock_all (holder : Z) (l : list (string * Z)) : list (string * Z) :=
  filter (fun e => negb (snd e =? holder)) l.

(** [subprocess.Popen(args, stdout=, stderr=, preexec_fn=, close_fds=)]: the
    process forks; the child runs [preexec_fn] and then replaces itself with
    the command.  The parent does not wait: it gets the child's identifier.
    What the child did to the file system and to the locks stays; a child
    that could not go on is gone, and its locks with it.  The pipe on which
    the child reports its failure to the parent is no descriptor of the
    model: the parent is told of every failure, which is what happens as
    long as the hook leaves that pipe open. *)
Definition subprocess_Popen (args : list string) (stdout stderr : Z)
           (preexec_fn : option (M unit)) (close_fds : bool) : M Z :=
  fun w =>
    let w := record_call
               (Call_Popen args stdout stderr
                           (match preexec_fn with Some _ => true | None => false end)
                           close_fds) w in
    let child := next_pid w in
    let w := set_next_pid (child + 1) w in
    let forked := set_pid child (set_children [] (set_calls [] w)) in
    let (hook, after) :=
      match preexec_fn with
      | Some f => f forked
      | None => (Return tt, forked)
      end in
    let shared (l : list (string * Z)) :=
      set_dirs (dirs after) (set_files (files after) (set_locks l
        (set_env (env after) w))) in
    match hook with
    | Return _ =>
        if mem (hd EmptyString args) (programs w) then
          (Return child,
           set_children (children w ++ [mkChild child args stdout stderr close_fds])
                        (set_env (spawned child args (env after))
                                 (shared (locks after))))
        else (Raise OSError, shared (unlock_all child (locks after)))
    | _ => (Raise SubprocessError, shared (unlock_all child (locks after)))
    end.

(** [os.open(path, flags, mode)]. *)
Definition os_open (path : string) (flags mode : Z) : M Z :=
  fun w =>
    let w := record_call (Call_os_open path flags mode) w in
    if (mem path (denied w) || mem path (dirs w))%bool then (Raise OSError, w)
    else if is_file (files w) path then
      let fd := lowest_fd (fds w) in
      (Return fd, set_fds ((fd, path) :: fds w) w)
    else if Z.land flags O_CREAT =? 0 then (Raise OSError, w)
    else
      let fd := lowest_fd (fds w) in
      (Return fd,
       set_fds ((fd, path) :: fds w) (set_files (write_file (files w) path EmptyString) w)).

Definition os_set_inheritable (fd : Z) (inheritable : bool) : M unit :=
  fun w =>
    let w := record_call (Call_set_inheritable fd inheritable) w in
    match fd_path (fds w) fd with
    | None => (Raise OSError, w)
    | Some _ => (Return tt, w)
    end.

(** Does a live process other than this one hold the lock on [path]. *)
Definition held_elsewhere (w : World) (path : string) : bool :=
  existsb (fun e => String.eqb (fst e) path
                    && negb (snd e =? pid w)
                    && alive (env w) (snd e))%bool
          (locks w).

(** [fcntl.lockf(fd, LOCK_EX | LOCK_NB)]: the lock is taken, or the call
    raises at once when another process holds it. *)
Definition fcntl_lockf (fd : Z) (cmd : Z) : M unit :=
  fun w =>
    let w := record_call (Call_lockf fd cmd) w in
    match fd_path (fds w) fd with
    | None => (Raise OSError, w)
    | Some path =>
        if held_elsewhere w path then (Raise OSError, w)
        else (Return tt, set_locks ((path, pid w) :: locks w) w)
    end.

(** The locks left once this process closed a descriptor of [path]: the
    process loses every lock it has on that file. *)
Definition release (w : World) (path : string) : list (string * Z) :=
  filter (fun e => negb (String.eqb (fst e) path && (snd e =? pid w))%bool) (locks w).

(** [os.close(fd)]. *)
Definition os_close (fd : Z) : M unit :=
  fun w =>
    let w := record_call (Call_close fd) w in
    match fd_path (fds w) fd with
    | None => (Raise OSError, w)
    | Some path =>
        (Return tt, set_fds (drop_fd (fds w) fd) (set_locks (release w path) w))
    end.

(** [os.closerange(fd_low, fd_high)]: errors are ignored. *)
Definition os_closerange (fd_low fd_high : Z) : M unit :=
  fun w =>
    let w := record_call (Call_closerange fd_low fd_high) w in
    let closing (e : Z * string) := ((fd_low <=? fst e) && (fst e <? fd_high))%bool in
    let closed := map snd (filter closing (fds w)) in
    (Return tt,
     set_fds (filter (fun e => negb (closing e)) (fds w))
             (set_locks
                (filter (fun e => negb (mem (fst e) closed && (snd e =? pid w))%bool)
                        (locks w)) w)).

Definition os_setsid : M unit :=
  fun w => (Return tt, record_call Call_setsid w).

Definition os_sysconf_SC_OPEN_MAX : M Z :=
  fun w => (Return (open_max w), w).

Definition time_sleep (secs : Z) : M unit :=
  fun w =>
    let w := record_call (Call_sleep secs) w in
    (Return tt, set_env (elapse secs (env w)) w).

Definition os_getlogin : M string :=
  fun w =>
    match getlogin (env w) with
    | Some name => (Return name, w)
    | None => (Raise OSError, w)
    end.

Definition datetime_now_microsecond : M Z :=
  fun w => (Return (microsecond (env w)), w).

(** [os.path.dirname(__file__)]. *)
Definition dirname_file : M string :=
  fun w => (Return (module_dir w), w).

Definition sys_exit {A : Type} (code : Z) : M A := raise (SystemExit code).

End Primitives.

Section Container.

Context {E : Environment}.

(** ** The module's functions *)

(** [docker_run] (lines 29-67).  The descriptor of [logs] is entered in the
    table when the file is opened; that the interpreter drops the file
    object, and closes it, once the call is over is not modelled, and the
    statements on [docker_run] say nothing of the table after a call that
    opened the file. *)
Definition docker_run (build_dir log_path : string) (odoo_cmd : list string)
           (container_name : string) (exposed_port cpu_limit : pyval)
           (preexec_fn : option (M unit)) : M Z :=
  (* build cmd *)
  let run_cmd := run_cmd odoo_cmd in
  logger_log DEBUG ("Docker run command: " +++ run_cmd) ;;
  logs <- open_w log_path ;;
  (* Prepare docker image *)
  let docker_dir := path_join build_dir "docker" in
  os_makedirs docker_dir true ;;
  here <- dirname_file ;;
  shutil_copy (path_join (path_join here "data") "Dockerfile") docker_dir ;;
  subprocess_run ["docker"; "build"; "--tag"; "odoo:runbot_tests"; "."]
                 (Some docker_dir) false false ;;
  (* start tests *)
  let docker_command :=
    docker_command build_dir container_name exposed_port cpu_limit run_cmd in
  docker_run <- subprocess_Popen docker_command logs logs preexec_fn false ;;
  logger_log INFO ("Started Docker container " +++ container_name) ;;
  ret docker_run.

(** [docker_stop] (lines 69-72). *)
Definition docker_stop (container_name : string) : M unit :=
  logger_log INFO ("Stopping container " +++ container_name) ;;
  dstop <- subprocess_run ["docker"; "stop"; container_name] None true true ;;
  ret tt.

(** [docker_build] (lines 74-77). *)
Definition docker_build (docker_file_path : string) : M unit :=
  logger_log INFO "Building docker image" ;;
  dbuild <- subprocess_run ["docker"; "build"; "--tag"; "odoo:runbot_tests"]
                           None false false ;;
  ret tt.

(** [lock] (lines 119-123). *)
Definition lock (filename : string) : M unit :=
  fd <- os_open filename (Z.lor O_CREAT O_RDWR) 384 (* 0o600 *) ;;
  (if has_set_inheritable then os_set_inheritable fd true else ret tt) ;;
  fcntl_lockf fd (Z.lor LOCK_EX LOCK_NB).

(** [locked] (lines 126-138).  The first [try] either yields the
    descriptor or leaves the function with [False]. *)
Definition locked (filename : string) : M bool :=
  let result := false in
  opened <- try_except
              (fd <- os_open filename (Z.lor O_CREAT O_RDWR) 384 (* 0o600 *) ;;
               ret (Some fd))
              (except_OSError (ret None)) ;;
  match opened with
  | None => ret false
  | Some fd =>
      result <- try_finally
                  (try_except
                     (fcntl_lockf fd (Z.lor LOCK_EX LOCK_NB) ;; ret result)
                     (except_OSError (ret true)))
                  (os_close fd) ;;
      ret result
  end.

(** [pfn] (lines 141-145), the hook the self-test gives to [docker_run]. *)
Definition pfn (lock_path : string) : M unit :=
  os_setsid ;;
  (* close parent files *)
  open_max <- os_sysconf_SC_OPEN_MAX ;;
  os_closerange 3 open_max ;;
  lock lock_path.

(** ['odoo-container-test-%s' % datetime.datetime.now().microsecond]. *)
Definition fresh_container_name : M string :=
  us <- datetime_now_microsecond ;;
  ret ("odoo-container-test-" +++ py_str (PyInt us)).

(** The loop of lines 152-154; [fuel] bounds the number of probes. *)
Fixpoint wait_while_locked (fuel : nat) (lock_path container_name : string) : M unit :=
  match fuel with
  | O => fun w => (OutOfFuel, w)
  | S fuel' =>
      busy <- locked lock_path ;;
      if busy then
        time_sleep 10 ;;
        logger_log INFO ("Waiting for " +++ container_name +++ " to stop") ;;
        wait_while_locked fuel' lock_path container_name
      else ret tt
  end.

(** Lines 91-160: the scenarios of the self-test, once the four arguments
    are there. *)
Definition self_test (fuel : nat) (sys_argv : list string) : M unit :=
  let build_dir := nth 1 sys_argv EmptyString in
  let odoo_version := nth 2 sys_argv EmptyString in
  let odoo_port := nth 3 sys_argv EmptyString in
  let db_name := nth 4 sys_argv EmptyString in
  os_makedirs (path_join build_dir "logs") true ;;
  os_makedirs (path_join build_dir "datadir") true ;;
  (* Test stopping a non running container *)
  logger_log INFO "Test killing an non existing container" ;;
  try_except (docker_stop "xyxyxyxyxy")
             (except_CalledProcessError
                (logger_log WARNING "Expected Docker stop failure")) ;;
  (* Test testing *)
  login <- os_getlogin ;;
  let odoo_cmd :=
    [ "/data/build/odoo-bin"; "-d " +++ db_name;
      "--addons-path=/data/build/addons"; "--data-dir"; "/data/build/datadir";
      "-r " +++ login; "-i"; "web"; "--test-enable"; "--stop-after-init";
      "--max-cron-threads=0" ] in
  let logfile := path_join (path_join build_dir "logs") "logs-partial.txt" in
  container_name <- fresh_container_name ;;
  docker_run build_dir logfile odoo_cmd container_name PyNone PyNone None ;;
  (* Test stopping the container *)
  logger_log INFO "Waiting 30 sec before killing the build" ;;
  time_sleep 30 ;;
  docker_stop container_name ;;
  time_sleep 3 ;;
  (* Test full testing *)
  let lock_path := path_join (path_join build_dir "logs") "lock.txt" in
  let logfile := path_join (path_join build_dir "logs") "logs-full-test.txt" in
  container_name <- fresh_container_name ;;
  docker_run build_dir logfile odoo_cmd container_name PyNone PyNone
             (Some (pfn lock_path)) ;;
  time_sleep 1 ;; (* give time for the lock *)
  wait_while_locked fuel lock_path container_name ;;
  (* Test running *)
  let logfile := path_join (path_join build_dir "logs") "logs-running.txt" in
  login <- os_getlogin ;;
  let odoo_cmd :=
    [ "/data/build/odoo-bin"; "-d " +++ db_name; "--db-filter"; db_name +++ ".*$";
      "--addons-path=/data/build/addons"; "-r " +++ login; "-i"; "web";
      "--max-cron-threads=0"; "--data-dir"; "/data/build/datadir" ] in
  container_name <- fresh_container_name ;;
  docker_run build_dir logfile odoo_cmd container_name
             (PyStr odoo_port) (PyInt 300) None ;;
  ret tt.

(** Lines 79-160, the module run as a script.  [sys.argv] is never empty
    then: it is the script name followed by the arguments. *)
Definition main (fuel : nat) (script : string) (args : list string) : M unit :=
  let sys_argv := script :: args in
  logger_setLevel (levelno DEBUG) ;;
  let handler := StreamHandler in
  let handler := handler_setLevel (levelno DEBUG) handler in
  let formatter := FormatAsctimeLevelNameMessage in
  let handler := handler_setFormatter formatter handler in
  logger_addHandler handler ;;
  logger_log INFO "Start container tests" ;;
  (if Z.of_nat (length sys_argv) <? 5 then
     logger_log ERROR
       ("Missing arguments: " +++ dquote +++ nth 0 sys_argv EmptyString
        +++ " build_dir odoo_version odoo_port db_name" +++ dquote) ;;
     sys_exit 1
   else ret tt) ;;
  self_test fuel sys_argv.

(** The exit status of the interpreter for an outcome of [main]: 0 when the
    script ran to its end, the code of [SystemExit], 1 for any other
    exception that nothing caught. *)
Definition exit_status (o : outcome unit) : option Z :=
  match o with
  | Return _ => Some 0
  | Raise (SystemExit code) => Some code
  | Raise _ => Some 1
  | OutOfFuel => None
  end.

End Container.

(** ** A concrete environment *)

(** A small engine and clock to run the definitions on: the engine knows
    the names of its running containers, a launch adds the name it gives,
    [docker stop] of a running name stops it and exits with 0, of any other
    name exits with 1; every other command exits with 0. *)
Record Host : Type := mkHost {
  host_running : list string;
  host_live : list Z;
  host_dead : list Z;
  host_clock : Z
}.

(** The value of [--name] in a launch vector. *)
Fixpoint name_option (args : list string) : option string :=
  match args with
  | flag :: rest =>
      if String.eqb flag "--name" then
        match rest with
        | name :: _ => Some name
        | [] => None
        end
      else name_option rest
  | [] => None
  end.

(** A child was started: it is alive, and the container it names runs. *)
Definition host_spawned (child : Z) (args : list string) (h : Host) : Host :=
  mkHost (match name_option args with
          | Some name => name :: host_running h
          | None => host_running h
          end)
         (child :: host_live h) (host_dead h) (host_clock h).

(** Time passes; a sleep of ten seconds is long enough for every container
    to finish and every child to exit. *)
Definition host_elapse (secs : Z) (h : Host) : Host :=
  if secs =? 10 then
    mkHost [] [] (host_dead h ++ host_live h) (host_clock h + secs * 1000000)
  else
    mkHost (host_running h) (host_live h) (host_dead h)
           (host_clock h + secs * 1000000).

Definition host_exec (args : list string) (cwd : option string) (h : Host) : Z * Host :=
  match args with
  | [docker; stop; name] =>
      if (String.eqb docker "docker" && String.eqb stop "stop")%bool then
        if mem name (host_running h) then
          (0, mkHost (filter (fun n => negb (String.eqb n name)) (host_running h))
                     (host_live h) (host_dead h) (host_clock h))
        else (1, h)
      else (0, h)
  | _ => (0, h)
  end.

Definition HostEnvironment : Environment := {|
  env_state := Host;
  asctime := fun _ => "2018-06-01 12:00:00,000";
  microsecond := fun h => Z.modulo (host_clock h) 1000000;
  getlogin := fun _ => Some "runbot";
  elapse := host_elapse;
  exec := host_exec;
  spawned := host_spawned;
  alive := fun h p => negb (existsb (Z.eqb p) (host_dead h));
  container_running := fun h name => mem name (host_running h)
|}.

(** A host with the engine installed, the packaged recipe in place under
    [/opt/runbot/data], an existing build directory [/tmp/b], the three
    standard streams open, one container [t1] running, and process 4242
    holding the lock on [/var/lock/other.lock]. *)
Definition sample_world : @World HostEnvironment :=
  @mkWorld HostEnvironment
    ["/tmp/b"; "/tmp/b/logs"; "/opt/runbot"; "/opt/runbot/data"]
    [("/opt/runbot/data/Dockerfile", "FROM ubuntu:xenial")]
    ["/proc/locked"]
    ["docker"]
    [(0, "/dev/stdin"); (1, "/dev/stdout"); (2, "/dev/stderr")]
    1024
    100 [] 101
    [("/var/lock/other.lock", 4242)]
    "/opt/runbot"
    (mkLogger "__main__" NOTSET (levelno WARNING) [])
    [] []
    (mkHost ["t1"] [4242] [] 123456).

(** The same host without the engine's client on the search path. *)
Definition bare_world : @World HostEnvironment :=
  @mkWorld HostEnvironment
    (dirs sample_world) (files sample_world) (denied sample_world)
    []
    (fds sample_world) (open_max sample_world) (pid sample_world)
    (children sample_world) (next_pid sample_world) (locks sample_world)
    (module_dir sample_world) (logger sample_world) (stderr sample_world)
    (calls sample_world) (env sample_world).


(** The same engine when the image cannot be built: [docker build] exits
    with 1, every other command is answered as before. *)
Definition failing_build_exec (args : list string) (cwd : option string) (h : Host)
  : Z * Host :=
  match args with
  | docker :: build :: _ =>
      if (String.eqb docker "docker" && String.eqb build "build")%bool then (1, h)
      else host_exec args cwd h
  | _ => host_exec args cwd h
  end.

Definition FailingBuildEnvironment : Environment := {|
  env_state := Host;
  asctime := fun _ => "2018-06-01 12:00:00,000";
  microsecond := fun h => Z.modulo (host_clock h) 1000000;
  getlogin := fun _ => Some "runbot";
  elapse := host_elapse;
  exec := failing_build_exec;
  spawned := host_spawned;
  alive := fun h p => negb (existsb (Z.eqb p) (host_dead h));
  container_running := fun h name => mem name (host_running h)
|}.

(** The sample host with that engine. *)
Definition failing_build_world : @World FailingBuildEnvironment :=
  @mkWorld FailingBuildEnvironment
    ["/tmp/b"; "/tmp/b/logs"; "/opt/runbot"; "/opt/runbot/data"]
    [("/opt/runbot/data/Dockerfile", "FROM ubuntu:xenial")]
    ["/proc/locked"]
    ["docker"]
    [(0, "/dev/stdin"); (1, "/dev/stdout"); (2, "/dev/stderr")]
    1024
    100 [] 101
    [("/var/lock/other.lock", 4242)]
    "/opt/runbot"
    (mkLogger "__main__" NOTSET (levelno WARNING) [])
    [] []
    (mkHost ["t1"] [4242] [] 123456).

(** ** Observations used in the statements *)

(** What the engine does on [docker stop name], as section 4.3 of the
    specification gives it: a running container is stopped and the command
    succeeds; for a name with no running container the command fails. *)
Definition stop_contract (E : Environment) : Prop :=
  forall (e : env_state) (name : string),
    let r := exec ["docker"; "stop"; name] None e in
    if container_running e name
    then fst r = 0 /\ container_running (snd r) name = false
    else fst r <> 0.

Section Observations.

Context {E : Environment}.

(** Every call [m] makes is appended to the record of calls and
    satisfies [P]. *)
Definition issues (P : call -> Prop) {A : Type} (m : M A) : Prop :=
  forall (w w' : World) (r : outcome A),
    m w = (r, w') -> exists l, calls w' = calls w ++ l /\ Forall P l.

(** A call that builds an image tags it [tag]; a call that launches a
    container launches the image [tag].  Other calls are not concerned. *)
Definition uses_image (tag : string) (c : call) : Prop :=
  match c with
  | Call_run (docker :: build :: rest) _ _ =>
      docker = "docker" -> build = "build" ->
      exists more, rest = "--tag" :: tag :: more
  | Call_Popen (docker :: run :: rest) _ _ _ _ =>
      docker = "docker" -> run = "run" ->
      exists opts command, rest = opts ++ [tag; "/bin/bash"; "-c"; command]
  | _ => True
  end.

(** Is the call an image build or a container launch. *)
Definition concerns_image (c : call) : bool :=
  match c with
  | Call_run (docker :: build :: _) _ _ =>
      String.eqb docker "docker" && String.eqb build "build"
  | Call_Popen (docker :: run :: _) _ _ _ _ =>
      String.eqb docker "docker" && String.eqb run "run"
  | _ => false
  end.

(** The calls of one complete [docker_run], in their order; [logs] is the
    descriptor of the log file. *)
Definition docker_run_calls (here build_dir log_path : string) (odoo_cmd : list string)
           (container_name : string) (exposed_port cpu_limit : pyval)
           (preexec : bool) (logs : Z) : list call :=
  let docker_dir := path_join build_dir "docker" in
  [ Call_open log_path "w";
    Call_makedirs docker_dir true;
    Call_copy (path_join (path_join here "data") "Dockerfile") docker_dir;
    Call_run ["docker"; "build"; "--tag"; "odoo:runbot_tests"; "."]
             (Some docker_dir) false;
    Call_Popen (docker_command build_dir container_name exposed_port cpu_limit
                               (run_cmd odoo_cmd))
               logs logs preexec false ].


(** The logger once the script configured it: level [DEBUG], and one more
    handler, on the standard error stream, with the timestamped format. *)
Definition configured (lg : Logger) : Logger :=
  mkLogger (lg_name lg) (levelno DEBUG) (lg_inherited lg)
           (lg_handlers lg ++
            [mkHandler (levelno DEBUG) FormatAsctimeLevelNameMessage]).

(** The world when the script reaches its argument check: the logger is
    configured and the record [Start container tests] was handled. *)
Definition started (w : World) : World :=
  let w1 := set_logger (configured (logger w)) w in
  set_stderr (stderr w1 ++
              emit (logger w1) (asctime (env w1)) INFO "Start container tests") w1.

(** The line the script's handler writes for the missing arguments. *)
Definition missing_arguments_line (w : World) (script : string) : string :=
  format FormatAsctimeLevelNameMessage (asctime (env w)) (lg_name (logger w)) ERROR
         ("Missing arguments: " +++ dquote +++ script
          +++ " build_dir odoo_version odoo_port db_name" +++ dquote).

(** The argument vector of a command of the engine's client: [docker]
    followed by one of the three subcommands the module uses. *)
Definition docker_client (args : list string) : Prop :=
  exists sub rest,
    args = "docker" :: sub :: rest
    /\ (sub = "build" \/ sub = "run" \/ sub = "stop").

(** A call that starts a program starts the engine's client. *)
Definition runs_docker (c : call) : Prop :=
  match c with
  | Call_run args _ _ => docker_client args
  | Call_Popen args _ _ _ _ => docker_client args
  | _ => True
  end.

(** A call that is not a launch. *)
Definition not_a_launch (c : call) : Prop :=
  match c with
  | Call_Popen _ _ _ _ _ => False
  | _ => True
  end.

(** A call that is not a sleep. *)
Definition not_a_sleep (c : call) : Prop :=
  match c with
  | Call_sleep _ => False
  | _ => True
  end.

(** Can [os.open] with [O_CREAT] open [path] in [w]. *)
Definition openable (w : World) (path : string) : bool :=
  negb (mem path (denied w) || mem path (dirs w)).


End Observations.

(** * Properties *)

(** ** Sanity checks of the pure part *)

Example run_cmd_echo :
  run_cmd ["echo"; "hi"] =
  "cd /data/build && head -1 odoo-bin | grep -q python3 && sudo pip3 install -r requirements.txt || sudo pip install -r requirements.txt && echo hi".
Proof. reflexivity. Qed.

Example docker_command_port :
  docker_command "/tmp/b" "t1" (PyInt 8070) (PyInt 300) "x" =
  [ "docker"; "run"; "--rm"; "--name"; "t1";
    "--volume=/var/run/postgresql:/var/run/postgresql";
    "--volume=/tmp/b:/data/build";
    "-p"; "127.0.0.1:8070:8069"; "--ulimit"; "cpu=300";
    "odoo:runbot_tests"; "/bin/bash"; "-c"; "x" ].
Proof. reflexivity. Qed.

Example path_join_ex :
  path_join "/tmp/b" "docker" = "/tmp/b/docker" /\
  path_join "/tmp/b/" "docker" = "/tmp/b/docker" /\
  path_join EmptyString "docker" = "docker" /\
  basename "/a/b/data/Dockerfile" = "Dockerfile".
Proof. repeat split; reflexivity. Qed.

Example str_of_Z_ex :
  str_of_Z 0 = "0" /\ str_of_Z 8069 = "8069" /\ str_of_Z 300 = "300".
Proof. repeat split; reflexivity. Qed.

(** ** The in-container command *)

(** [run_cmd] written out, and its place in the launch vector. *)
Lemma run_cmd_chain :
  forall (odoo_cmd : list string),
    run_cmd odoo_cmd =
      "cd /data/build" +++ " && " +++
      "head -1 odoo-bin | grep -q python3 && sudo pip3 install -r requirements.txt || sudo pip install -r requirements.txt"
      +++ " && " +++ String.concat " " odoo_cmd
    /\ forall build_dir container_name exposed_port cpu_limit,
        exists options,
          docker_command build_dir container_name exposed_port cpu_limit
                         (run_cmd odoo_cmd)
          = options ++ ["/bin/bash"; "-c"; run_cmd odoo_cmd].
Proof.
  intros odoo_cmd. split.
  - reflexivity.
  - intros build_dir container_name exposed_port cpu_limit.
    unfold docker_command.
    match goal with
    | |- exists o, ?pre ++ [?tag; _; _; _] = _ => exists (pre ++ [tag])
    end.
    rewrite <- app_assoc. reflexivity.
Qed.

(** ** The launch argument vector *)

Ltac not_among :=
  let Hin := fresh "Hin" in
  simpl; intro Hin;
  repeat (destruct Hin as [Hin | Hin]; [discriminate Hin |]);
  exact Hin.

(** With a port that counts as true, the pair [-p 127.0.0.1:<port>:8069]
    follows the two volumes. *)
Lemma docker_command_truthy_port :
  forall build_dir container_name exposed_port cpu_limit command,
    truthy exposed_port = true ->
    exists rest,
      docker_command build_dir container_name exposed_port cpu_limit command
      = [ "docker"; "run"; "--rm"; "--name"; container_name;
          "--volume=/var/run/postgresql:/var/run/postgresql";
          "--volume=" +++ build_dir +++ ":/data/build";
          "-p"; "127.0.0.1:" +++ py_str exposed_port +++ ":8069" ] ++ rest.
Proof.
  intros build_dir container_name exposed_port cpu_limit command Hport.
  unfold docker_command. rewrite Hport.
  destruct (truthy cpu_limit); eexists; simpl; reflexivity.
Qed.

(** With [exposed_port] left at [None], no token after the container name
    is [-p]. *)
Lemma docker_command_port_omitted :
  forall build_dir container_name cpu_limit odoo_cmd,
    ~ In "-p" (skipn 5 (docker_command build_dir container_name PyNone cpu_limit
                                       (run_cmd odoo_cmd))).
Proof.
  intros build_dir container_name cpu_limit odoo_cmd.
  unfold docker_command, run_cmd, cmd_chain.
  destruct (truthy cpu_limit); not_among.
Qed.

(** C4, at [exposed_port=0].  The docstring of [docker_run] promises the
    port mapping for every [exposed_port] that is not [None]; with the
    integer 0 supplied, the vector handed to [Popen] has no [-p] at all: it
    is the vector of a call without [exposed_port]. *)
Theorem docker_command_port_zero_not_published :
  docker_command "/tmp/b" "t1" (PyInt 0) PyNone (run_cmd ["echo"; "hi"])
  = [ "docker"; "run"; "--rm"; "--name"; "t1";
      "--volume=/var/run/postgresql:/var/run/postgresql";
      "--volume=/tmp/b:/data/build";
      "odoo:runbot_tests"; "/bin/bash"; "-c"; run_cmd ["echo"; "hi"] ]
  /\ ~ In "-p" (docker_command "/tmp/b" "t1" (PyInt 0) PyNone (run_cmd ["echo"; "hi"]))
  /\ docker_command "/tmp/b" "t1" (PyInt 0) PyNone (run_cmd ["echo"; "hi"])
     = docker_command "/tmp/b" "t1" PyNone PyNone (run_cmd ["echo"; "hi"]).
Proof.
  split; [reflexivity | split; [| reflexivity]].
  not_among.
Qed.

(** C9.  The optional flags are gated on the truth value of the argument,
    not on its being supplied: with an [exposed_port] that counts as false
    (0 and the empty string do) the vector is the one of a call without
    [exposed_port] and has no [-p] after the container name; with a
    [cpu_limit] that counts as false (0 does) it is the one of a call
    without [cpu_limit] and has no [--ulimit] after the container name. *)
Theorem optional_flags_gated_on_truthiness :
  forall build_dir container_name exposed_port cpu_limit odoo_cmd,
    let argv := docker_command build_dir container_name exposed_port cpu_limit
                               (run_cmd odoo_cmd) in
    (truthy exposed_port = false ->
       argv = docker_command build_dir container_name PyNone cpu_limit (run_cmd odoo_cmd)
       /\ ~ In "-p" (skipn 5 argv))
    /\ (truthy cpu_limit = false ->
       argv = docker_command build_dir container_name exposed_port PyNone (run_cmd odoo_cmd)
       /\ ~ In "--ulimit" (skipn 5 argv))
    /\ truthy (PyInt 0) = false
    /\ truthy (PyStr EmptyString) = false.
Proof.
  intros build_dir container_name exposed_port cpu_limit odoo_cmd argv.
  subst argv. unfold docker_command, run_cmd, cmd_chain.
  repeat split; try reflexivity.
  - rewrite H. reflexivity.
  - rewrite H. destruct (truthy cpu_limit); not_among.
  - rewrite H. reflexivity.
  - rewrite H. destruct (truthy exposed_port); not_among.
Qed.

Lemma optional_flags_gated_on_truthiness_witness :
  truthy (PyInt 0) = false /\
  ~ In "-p" (skipn 5 (docker_command "/tmp/b" "t1" (PyInt 0) (PyInt 0)
                                     (run_cmd ["echo"; "hi"]))) /\
  ~ In "--ulimit" (skipn 5 (docker_command "/tmp/b" "t1" (PyInt 0) (PyInt 0)
                                           (run_cmd ["echo"; "hi"]))).
Proof.
  pose proof (optional_flags_gated_on_truthiness
                "/tmp/b" "t1" (PyInt 0) (PyInt 0) ["echo"; "hi"]) as H.
  cbv zeta in H. destruct H as (Hport & Hcpu & _).
  split; [reflexivity |].
  split.
  - exact (proj2 (Hport eq_refl)).
  - exact (proj2 (Hcpu eq_refl)).
Defined.

(** ** Descriptors *)

Lemma filter_above_shrinks :
  forall (used : list Z) (start : Z),
    existsb (Z.eqb start) used = true ->
    (length (filter (fun x => (start + 1 <=? x)%Z) used)
     < length (filter (fun x => (start <=? x)%Z) used))%nat.
Proof.
  induction used as [| x used IH]; intros start Hin; simpl in *.
  - discriminate.
  - assert (Hmono : (length (filter (fun y => (start + 1 <=? y)%Z) used)
                     <= length (filter (fun y => (start <=? y)%Z) used))%nat).
    { clear. induction used as [| y used IH]; simpl; [lia |].
      destruct (Z.leb_spec (start + 1) y), (Z.leb_spec start y); simpl; lia. }
    destruct (Z.eq_dec start x) as [Heq | Hne].
    + subst x.
      destruct (Z.leb_spec (start + 1) start), (Z.leb_spec start start);
        simpl; lia.
    + apply Z.eqb_neq in Hne. rewrite Hne in Hin. simpl in Hin.
      specialize (IH start Hin).
      destruct (Z.leb_spec (start + 1) x), (Z.leb_spec start x); simpl; lia.
Qed.

Lemma lowest_from_fresh :
  forall (n : nat) (start : Z) (used : list Z),
    (length (filter (fun x => (start <=? x)%Z) used) <= n)%nat ->
    existsb (Z.eqb (lowest_from n start used)) used = false.
Proof.
  induction n as [| n IH]; intros start used Hlen; simpl.
  - destruct (existsb (Z.eqb start) used) eqn:Hin; [| reflexivity].
    apply filter_above_shrinks in Hin. lia.
  - destruct (existsb (Z.eqb start) used) eqn:Hin; [| exact Hin].
    apply IH. apply filter_above_shrinks in Hin. lia.
Qed.

(** The descriptor the kernel allots is not open yet. *)
Lemma lowest_fd_fresh :
  forall (table : list (Z * string)),
    existsb (Z.eqb (lowest_fd table)) (map fst table) = false.
Proof.
  intros table. unfold lowest_fd. apply lowest_from_fresh.
  rewrite <- (length_map fst table). apply filter_length_le.
Qed.

Lemma drop_fd_fresh :
  forall (table : list (Z * string)) (fd : Z),
    existsb (Z.eqb fd) (map fst table) = false -> drop_fd table fd = table.
Proof.
  induction table as [| [n p] table IH]; intros fd Hfresh; simpl in *.
  - reflexivity.
  - apply orb_false_elim in Hfresh. destruct Hfresh as [Hne Hrest].
    rewrite Z.eqb_sym in Hne. rewrite Hne. simpl. f_equal. now apply IH.
Qed.

(** Opening and then closing gives the descriptor table back. *)
Lemma drop_fd_opened :
  forall (table : list (Z * string)) (path : string),
    drop_fd ((lowest_fd table, path) :: table) (lowest_fd table) = table.
Proof.
  intros table path. unfold drop_fd. simpl.
  rewrite Z.eqb_refl. simpl.
  apply drop_fd_fresh, lowest_fd_fresh.
Qed.

Arguments mem : simpl never.
Arguments lowest_fd : simpl never.
Arguments is_file : simpl never.
Arguments write_file : simpl never.
Arguments path_join : simpl never.
Arguments basename : simpl never.
Arguments emit : simpl never.
Arguments docker_command : simpl never.
Arguments run_cmd : simpl never.

Ltac open_world w :=
  destruct w as [dirs0 files0 denied0 programs0 fds0 open_max0 pid0 children0
                 next_pid0 locks0 module_dir0 logger0 stderr0 calls0 env0].

Section Properties.

Context {E : Environment}.

(** ** The lock probe *)

(** C2.  [locked path] opens or creates the file and tries the exclusive
    lock without blocking.  It never raises; it returns true exactly when
    [os.open] succeeds and [fcntl.lockf] then raises, which is when a live
    process other than this one holds the lock; in every other case it
    returns false.  Once the file was opened the descriptor is closed before
    the return, so the descriptor table is as before the call and a lock the
    probe took is dropped again; when the file cannot be opened the result
    is false and nothing else was called. *)
Theorem locked_probe :
  forall (path : string) (w : World),
    let openable := negb (mem path (denied w) || mem path (dirs w)) in
    let fd := lowest_fd (fds w) in
    let opening := Call_os_open path (Z.lor O_CREAT O_RDWR) 384 in
    exists w',
      locked path w = (Return (openable && held_elsewhere w path)%bool, w')
      /\ ((openable && held_elsewhere w path)%bool = true <->
          exists n w1 w2,
            os_open path (Z.lor O_CREAT O_RDWR) 384 w = (Return n, w1)
            /\ fcntl_lockf n (Z.lor LOCK_EX LOCK_NB) w1 = (Raise OSError, w2))
      /\ fds w' = fds w
      /\ calls w' =
           calls w ++
           (if openable
            then [opening; Call_lockf fd (Z.lor LOCK_EX LOCK_NB); Call_close fd]
            else [opening])
      /\ locks w' = (if openable then release w path else locks w).
Proof.
  intros path w openable fd opening.
  subst openable fd opening.
  destruct w as [dirs0 files0 denied0 programs0 fds0 open_max0 pid0 children0
                 next_pid0 locks0 module_dir0 logger0 stderr0 calls0 env0].
  unfold locked, bind, try_except, try_finally, except_OSError, ret,
    os_open, fcntl_lockf, os_close, held_elsewhere, release.
  cbn.
  destruct (mem path denied0 || mem path dirs0)%bool eqn:Hden; cbn.
  - (* the file cannot be opened *)
    eexists. split; [reflexivity |]. cbn.
    split; [| auto].
    split; [discriminate |].
    intros (n & w1 & w2 & Hopen & _). discriminate Hopen.
  - (* the file is open on the lowest free descriptor *)
    assert (Hfds : filter (fun e : Z * string => negb (fst e =? lowest_fd fds0)) fds0
                   = fds0)
      by exact (drop_fd_fresh fds0 (lowest_fd fds0) (lowest_fd_fresh fds0)).
    destruct (is_file files0 path); cbn; rewrite Z.eqb_refl; cbn;
      destruct (existsb _ locks0) eqn:Hheld; cbn; rewrite Z.eqb_refl; cbn;
      rewrite ?String.eqb_refl, ?Z.eqb_refl; cbn;
      eexists; (split; [reflexivity |]); cbn;
      rewrite <- !app_assoc; cbn;
      (split; [| repeat split; solve [reflexivity | exact Hfds]]);
      (split;
       [ intros Htrue;
         first [ discriminate Htrue
               | eexists _, _, _; split; [reflexivity |];
                 cbn; rewrite Z.eqb_refl, Hheld; reflexivity ]
       | intros (n & w1 & w2 & Hopen & Hlock);
         inversion Hopen; subst n w1; cbn in Hlock;
         rewrite Z.eqb_refl, Hheld in Hlock;
         first [ reflexivity | discriminate Hlock ] ]).
Qed.

(** ** The container stopper *)

(** C3.  [docker_stop name] raises [CalledProcessError] if and only if the
    engine's stop command ran and exited with a status other than 0.  With
    an engine that behaves as [stop_contract] says, it therefore raises for
    every name with no running container, and returns normally, the
    container no longer running, for the name of a running one. *)
Theorem docker_stop_raises_iff_stop_fails :
  forall (name : string) (w : World),
    ((exists rc cmd w', docker_stop name w = (Raise (CalledProcessError rc cmd), w'))
     <-> (mem "docker" (programs w) = true
          /\ fst (exec ["docker"; "stop"; name] None (env w)) <> 0))
    /\ (stop_contract E ->
        mem "docker" (programs w) = true ->
        (container_running (env w) name = false ->
         exists rc w',
           docker_stop name w
           = (Raise (CalledProcessError rc ["docker"; "stop"; name]), w')
           /\ rc <> 0)
        /\ (container_running (env w) name = true ->
            exists w',
              docker_stop name w = (Return tt, w')
              /\ container_running (env w') name = false)).
Proof.
  intros name w. open_world w.
  unfold docker_stop, bind, logger_log, subprocess_run, ret. cbn.
  destruct (mem "docker" programs0) eqn:Hdocker; cbn.
  - destruct (exec ["docker"; "stop"; name] None env0) as [rc e] eqn:Hexec. cbn.
    destruct (Z.eqb_spec rc 0) as [Hrc | Hrc]; cbn.
    + split.
      * split.
        -- intros (rc' & cmd & w' & Hraise). discriminate Hraise.
        -- intros [_ Hne]. contradiction.
      * intros Hcontract _. specialize (Hcontract env0 name).
        cbv zeta in Hcontract. rewrite Hexec in Hcontract. cbn in Hcontract.
        destruct (container_running env0 name).
        -- split; [discriminate |]. intros _.
           eexists. split; [reflexivity |]. cbn. apply Hcontract.
        -- contradiction.
    + split.
      * split.
        -- intros _. split; [reflexivity | exact Hrc].
        -- intros _. eexists _, _, _. reflexivity.
      * intros Hcontract _. specialize (Hcontract env0 name).
        cbv zeta in Hcontract. rewrite Hexec in Hcontract. cbn in Hcontract.
        destruct (container_running env0 name).
        -- destruct Hcontract as [Hzero _]. contradiction.
        -- split; [| discriminate]. intros _.
           eexists _, _. split; [reflexivity | exact Hrc].
  - split.
    + split.
      * intros (rc' & cmd & w' & Hraise). discriminate Hraise.
      * intros [Hyes _]. discriminate Hyes.
    + intros _ Hyes. discriminate Hyes.
Qed.

Lemma mem_filter_out :
  forall (name : string) (l : list string),
    mem name (filter (fun n => negb (String.eqb n name)) l) = false.
Proof.
  intros name l. unfold mem.
  induction l as [| n l IH]; cbn; [reflexivity |].
  destruct (String.eqb n name) eqn:Heq; cbn; [exact IH |].
  rewrite String.eqb_sym, Heq. exact IH.
Qed.

Lemma host_stop_contract : stop_contract HostEnvironment.
Proof.
  intros e name. cbn. unfold host_exec. cbn.
  destruct (mem name (host_running e)) eqn:Hrun; cbn.
  - split; [reflexivity | apply mem_filter_out].
  - discriminate.
Qed.

Section Calls.

(** ** The calls a computation makes *)

Variable P : call -> Prop.

Lemma issues_ret : forall (A : Type) (a : A), issues P (ret a).
Proof.
  intros A a w w' r Hrun. inversion Hrun; subst.
  exists []. rewrite app_nil_r. auto.
Qed.

Lemma issues_raise : forall (A : Type) (e : exn), issues P (@raise E A e).
Proof.
  intros A e w w' r Hrun. inversion Hrun; subst.
  exists []. rewrite app_nil_r. auto.
Qed.

Lemma issues_bind :
  forall (A B : Type) (m : M A) (k : A -> M B),
    issues P m -> (forall a, issues P (k a)) -> issues P (bind m k).
Proof.
  intros A B m k Hm Hk w w' r Hrun. unfold bind in Hrun.
  destruct (m w) as [[a | e |] w1] eqn:Hfirst.
  - destruct (Hm _ _ _ Hfirst) as (l1 & Hl1 & HP1).
    destruct (Hk a _ _ _ Hrun) as (l2 & Hl2 & HP2).
    exists (l1 ++ l2). rewrite Hl2, Hl1, app_assoc.
    split; [reflexivity | now apply Forall_app].
  - inversion Hrun; subst. exact (Hm _ _ _ Hfirst).
  - inversion Hrun; subst. exact (Hm _ _ _ Hfirst).
Qed.

Lemma issues_try_except :
  forall (A : Type) (m : M A) (h : exn -> option (M A)),
    issues P m ->
    (forall e handler, h e = Some handler -> issues P handler) ->
    issues P (try_except m h).
Proof.
  intros A m h Hm Hh w w' r Hrun. unfold try_except in Hrun.
  destruct (m w) as [[a | e |] w1] eqn:Hfirst.
  - inversion Hrun; subst. exact (Hm _ _ _ Hfirst).
  - destruct (h e) as [handler |] eqn:Hcatch.
    + destruct (Hm _ _ _ Hfirst) as (l1 & Hl1 & HP1).
      destruct (Hh _ _ Hcatch _ _ _ Hrun) as (l2 & Hl2 & HP2).
      exists (l1 ++ l2). rewrite Hl2, Hl1, app_assoc.
      split; [reflexivity | now apply Forall_app].
    + inversion Hrun; subst. exact (Hm _ _ _ Hfirst).
  - inversion Hrun; subst. exact (Hm _ _ _ Hfirst).
Qed.

Lemma issues_try_finally :
  forall (A : Type) (m : M A) (f : M unit),
    issues P m -> issues P f -> issues P (try_finally m f).
Proof.
  intros A m f Hm Hf w w' r Hrun. unfold try_finally in Hrun.
  destruct (m w) as [o w1] eqn:Hfirst.
  destruct (Hm _ _ _ Hfirst) as (l1 & Hl1 & HP1).
  assert (Hthen :
    forall o2 w2, f w1 = (o2, w2) ->
                  exists l, calls w2 = calls w ++ l /\ Forall P l).
  { intros o2 w2 Hsecond.
    destruct (Hf _ _ _ Hsecond) as (l2 & Hl2 & HP2).
    exists (l1 ++ l2). rewrite Hl2, Hl1, app_assoc.
    split; [reflexivity | now apply Forall_app]. }
  destruct o as [a | e |].
  - destruct (f w1) as [[u | e2 |] w2] eqn:Hsecond;
      inversion Hrun; subst; eapply Hthen; reflexivity.
  - destruct (f w1) as [[u | e2 |] w2] eqn:Hsecond;
      inversion Hrun; subst; eapply Hthen; reflexivity.
  - inversion Hrun; subst. eauto.
Qed.

(** A computation whose every run leaves the record of calls alone. *)
Lemma issues_silent :
  forall (A : Type) (m : M A),
    (forall w, calls (snd (m w)) = calls w) -> issues P m.
Proof.
  intros A m Hsame w w' r Hrun. specialize (Hsame w).
  rewrite Hrun in Hsame. cbn in Hsame.
  exists []. rewrite app_nil_r. auto.
Qed.

(** A computation whose every run appends exactly the call [c]. *)
Lemma issues_one :
  forall (A : Type) (m : M A) (c : call),
    P c -> (forall w, calls (snd (m w)) = calls w ++ [c]) -> issues P m.
Proof.
  intros A m c Hc Hone w w' r Hrun. specialize (Hone w).
  rewrite Hrun in Hone. cbn in Hone.
  exists [c]. auto.
Qed.

End Calls.

Ltac one_call w :=
  open_world w; cbn;
  repeat match goal with
         | |- context [if ?x then _ else _] => destruct x; cbn
         | |- context [match ?x with Some _ => _ | None => _ end] =>
             destruct x; cbn
         end;
  reflexivity.

Lemma logger_log_calls :
  forall l message w, calls (snd (logger_log l message w)) = calls w.
Proof. intros. reflexivity. Qed.

Lemma logger_setLevel_calls :
  forall n w, calls (snd (logger_setLevel n w)) = calls w.
Proof. intros. reflexivity. Qed.

Lemma logger_addHandler_calls :
  forall h w, calls (snd (logger_addHandler h w)) = calls w.
Proof. intros. reflexivity. Qed.

Lemma os_getlogin_calls : forall w, calls (snd (os_getlogin w)) = calls w.
Proof. intros. unfold os_getlogin. destruct (getlogin (env w)); reflexivity. Qed.

Lemma open_w_calls :
  forall path w, calls (snd (open_w path w)) = calls w ++ [Call_open path "w"].
Proof. intros path w. unfold open_w. one_call w. Qed.

Lemma os_makedirs_calls :
  forall path exist_ok w,
    calls (snd (os_makedirs path exist_ok w))
    = calls w ++ [Call_makedirs path exist_ok].
Proof. intros path exist_ok w. unfold os_makedirs. one_call w. Qed.

Lemma shutil_copy_calls :
  forall src dst w,
    calls (snd (shutil_copy src dst w)) = calls w ++ [Call_copy src dst].
Proof. intros src dst w. unfold shutil_copy. one_call w. Qed.

Lemma subprocess_run_calls :
  forall args cwd pipe_stderr check w,
    calls (snd (subprocess_run args cwd pipe_stderr check w))
    = calls w ++ [Call_run args cwd check].
Proof.
  intros args cwd pipe_stderr check w. unfold subprocess_run.
  open_world w. cbn.
  destruct (cwd_exists cwd _); cbn; [| reflexivity].
  destruct (mem _ programs0); cbn; [| reflexivity].
  destruct (exec args cwd env0) as [returncode e]. cbn.
  destruct (check && negb (returncode =? 0))%bool; reflexivity.
Qed.

Lemma subprocess_Popen_calls :
  forall args stdout stderr preexec_fn close_fds w,
    calls (snd (subprocess_Popen args stdout stderr preexec_fn close_fds w))
    = calls w ++
      [Call_Popen args stdout stderr
                  (match preexec_fn with Some _ => true | None => false end)
                  close_fds].
Proof.
  intros args out err preexec_fn close_fds w.
  unfold subprocess_Popen. open_world w. cbn.
  destruct preexec_fn as [f |]; cbn.
  - destruct (f _) as [[u | e |] after]; cbn;
      try destruct (mem _ programs0); reflexivity.
  - destruct (mem _ programs0); reflexivity.
Qed.

Lemma os_open_calls :
  forall path flags mode w,
    calls (snd (os_open path flags mode w))
    = calls w ++ [Call_os_open path flags mode].
Proof. intros path flags mode w. unfold os_open. one_call w. Qed.

Lemma os_set_inheritable_calls :
  forall fd b w,
    calls (snd (os_set_inheritable fd b w))
    = calls w ++ [Call_set_inheritable fd b].
Proof. intros fd b w. unfold os_set_inheritable. one_call w. Qed.

Lemma fcntl_lockf_calls :
  forall fd cmd w,
    calls (snd (fcntl_lockf fd cmd w)) = calls w ++ [Call_lockf fd cmd].
Proof. intros fd cmd w. unfold fcntl_lockf. one_call w. Qed.

Lemma os_close_calls :
  forall fd w, calls (snd (os_close fd w)) = calls w ++ [Call_close fd].
Proof. intros fd w. unfold os_close. one_call w. Qed.

Lemma os_closerange_calls :
  forall lo hi w,
    calls (snd (os_closerange lo hi w)) = calls w ++ [Call_closerange lo hi].
Proof. intros. reflexivity. Qed.

Lemma time_sleep_calls :
  forall secs w, calls (snd (time_sleep secs w)) = calls w ++ [Call_sleep secs].
Proof. intros. reflexivity. Qed.

(** ** The image tag *)

Lemma issues_weaken :
  forall (P Q : call -> Prop) (A : Type) (m : M A),
    (forall c, P c -> Q c) -> issues P m -> issues Q m.
Proof.
  intros P Q A m HPQ Hm w w' r Hrun.
  destruct (Hm _ _ _ Hrun) as (l & Hl & HP).
  exists l. split; [exact Hl |].
  eapply Forall_impl; eauto.
Qed.

Lemma issues_except_OSError :
  forall (P : call -> Prop) (A : Type) (m handler : M A),
    issues P m -> issues P handler ->
    issues P (try_except m (except_OSError handler)).
Proof.
  intros P A m handler Hm Hh. apply issues_try_except; [exact Hm |].
  intros e h Hcatch. destruct e; inversion Hcatch; subst. exact Hh.
Qed.

Lemma issues_except_CalledProcessError :
  forall (P : call -> Prop) (A : Type) (m handler : M A),
    issues P m -> issues P handler ->
    issues P (try_except m (except_CalledProcessError handler)).
Proof.
  intros P A m handler Hm Hh. apply issues_try_except; [exact Hm |].
  intros e h Hcatch. destruct e; inversion Hcatch; subst. exact Hh.
Qed.

Lemma tail4_inj :
  forall (A : Type) (l1 l2 : list A) (a1 b1 c1 d1 a2 b2 c2 d2 : A),
    l1 ++ [a1; b1; c1; d1] = l2 ++ [a2; b2; c2; d2] -> a1 = a2.
Proof.
  intros A l1 l2 a1 b1 c1 d1 a2 b2 c2 d2 Heq.
  change (l1 ++ [a1; b1; c1; d1]) with (l1 ++ [a1] ++ [b1] ++ [c1] ++ [d1]) in Heq.
  change (l2 ++ [a2; b2; c2; d2]) with (l2 ++ [a2] ++ [b2] ++ [c2] ++ [d2]) in Heq.
  rewrite !app_assoc in Heq.
  apply app_inj_tail in Heq. destruct Heq as [Heq _].
  apply app_inj_tail in Heq. destruct Heq as [Heq _].
  apply app_inj_tail in Heq. destruct Heq as [Heq _].
  apply app_inj_tail in Heq. destruct Heq as [_ Heq]. exact Heq.
Qed.

(** The launch vector is [docker run], some options, the image, and the
    shell with its command. *)
Lemma docker_command_shape :
  forall build_dir container_name exposed_port cpu_limit command,
    exists opts,
      docker_command build_dir container_name exposed_port cpu_limit command
      = "docker" :: "run" ::
        opts ++ ["odoo:runbot_tests"; "/bin/bash"; "-c"; command].
Proof.
  intros build_dir container_name exposed_port cpu_limit command.
  unfold docker_command.
  match goal with
  | |- exists o, ?d :: ?r :: ?pre ++ ?tail = _ =>
      exists pre; reflexivity
  | |- exists o, ?all ++ ?tail = _ => exists (skipn 2 all)
  end.
  destruct (truthy exposed_port), (truthy cpu_limit); reflexivity.
Qed.

Ltac step_calls :=
  first
    [ apply issues_ret
    | apply issues_raise
    | apply issues_bind; [| intros ?]
    | apply issues_except_OSError
    | apply issues_except_CalledProcessError
    | apply issues_try_finally
    | apply issues_silent; intros;
      first [ apply logger_log_calls | apply logger_setLevel_calls
            | apply logger_addHandler_calls | apply os_getlogin_calls
            | reflexivity ]
    | eapply issues_one;
      [| intros;
         first [ apply open_w_calls | apply os_makedirs_calls
               | apply shutil_copy_calls | apply subprocess_run_calls
               | apply subprocess_Popen_calls | apply os_open_calls
               | apply os_set_inheritable_calls | apply fcntl_lockf_calls
               | apply os_close_calls | apply os_closerange_calls
               | apply time_sleep_calls ] ] ].

Ltac image_call :=
  match goal with
  | |- uses_image _ (Call_Popen (docker_command ?b ?n ?p ?c ?cmd) _ _ _ _) =>
      let opts := fresh "opts" in
      let Hshape := fresh "Hshape" in
      destruct (docker_command_shape b n p c cmd) as [opts Hshape];
      rewrite Hshape; cbn; intros _ _; exists opts, cmd; reflexivity
  | |- uses_image _ (Call_run _ _ _) =>
      cbn; intros _ Hsub;
      first [ discriminate Hsub | eexists; reflexivity ]
  | |- uses_image _ _ => exact I
  end.

Lemma docker_run_uses_image :
  forall build_dir log_path odoo_cmd container_name exposed_port cpu_limit preexec_fn,
    issues (uses_image "odoo:runbot_tests")
           (docker_run build_dir log_path odoo_cmd container_name
                       exposed_port cpu_limit preexec_fn).
Proof.
  intros. unfold docker_run. repeat step_calls; image_call.
Qed.

Lemma docker_stop_uses_image :
  forall container_name,
    issues (uses_image "odoo:runbot_tests") (docker_stop container_name).
Proof.
  intros. unfold docker_stop. repeat step_calls; image_call.
Qed.

Lemma docker_build_uses_image :
  forall docker_file_path,
    issues (uses_image "odoo:runbot_tests") (docker_build docker_file_path).
Proof.
  intros. unfold docker_build. repeat step_calls; image_call.
Qed.

Lemma locked_uses_image :
  forall filename, issues (uses_image "odoo:runbot_tests") (locked filename).
Proof.
  intros. unfold locked. repeat step_calls.
  all: try image_call.
  destruct a; repeat step_calls; image_call.
Qed.

Lemma wait_while_locked_uses_image :
  forall fuel lock_path container_name,
    issues (uses_image "odoo:runbot_tests")
           (wait_while_locked fuel lock_path container_name).
Proof.
  induction fuel as [| fuel IH]; intros lock_path container_name; cbn.
  - apply issues_silent. reflexivity.
  - apply issues_bind; [apply locked_uses_image |].
    intros [|]; [| apply issues_ret].
    repeat step_calls; try image_call. apply IH.
Qed.

Ltac module_calls :=
  repeat first
    [ apply docker_run_uses_image
    | apply docker_stop_uses_image
    | apply wait_while_locked_uses_image
    | step_calls ];
  try image_call.

Lemma self_test_uses_image :
  forall fuel sys_argv,
    issues (uses_image "odoo:runbot_tests") (self_test fuel sys_argv).
Proof.
  intros. unfold self_test, fresh_container_name. module_calls.
Qed.

Lemma main_uses_image :
  forall fuel script args,
    issues (uses_image "odoo:runbot_tests") (main fuel script args).
Proof.
  intros. unfold main.
  apply issues_bind; [module_calls |]. intros _.
  apply issues_bind; [module_calls |]. intros _.
  apply issues_bind; [module_calls |]. intros _.
  apply issues_bind; [| intros _; apply self_test_uses_image].
  destruct (Z.of_nat (length (script :: args)) <? 5); module_calls.
Qed.

(** C6.  Every image build and every container launch the module issues,
    from [docker_run], from [docker_build] and from the whole self-test
    whatever its arguments (the version among them), names the one image
    [odoo:runbot_tests]: a build is [docker build --tag odoo:runbot_tests
    ...], a launch is [docker run ... odoo:runbot_tests /bin/bash -c ...].
    No tag of the form [tests-VERSION] is ever formed. *)
Theorem every_build_and_launch_uses_fixed_tag :
  (forall build_dir log_path odoo_cmd container_name exposed_port cpu_limit
          preexec_fn,
      issues (uses_image "odoo:runbot_tests")
             (docker_run build_dir log_path odoo_cmd container_name
                         exposed_port cpu_limit preexec_fn))
  /\ (forall docker_file_path,
         issues (uses_image "odoo:runbot_tests") (docker_build docker_file_path))
  /\ (forall fuel script args,
         issues (uses_image "odoo:runbot_tests") (main fuel script args))
  /\ (forall version c,
         concerns_image c = true ->
         uses_image "odoo:runbot_tests" c ->
         ~ uses_image ("odoo:tests-" +++ version) c).
Proof.
  split; [exact docker_run_uses_image |].
  split; [exact docker_build_uses_image |].
  split; [exact main_uses_image |].
  intros version c Hconcerns Hfixed Hversion.
  destruct c as [| | | args cwd check | args out err pre cf | | | | | | |];
    try discriminate Hconcerns;
    destruct args as [| docker [| sub rest]]; try discriminate Hconcerns;
    cbn in Hconcerns, Hfixed, Hversion;
    apply andb_prop in Hconcerns; destruct Hconcerns as [Hd Hs];
    apply String.eqb_eq in Hd; apply String.eqb_eq in Hs;
    specialize (Hfixed Hd Hs); specialize (Hversion Hd Hs).
  - destruct Hfixed as [more1 H1]. destruct Hversion as [more2 H2].
    rewrite H1 in H2. inversion H2.
  - destruct Hfixed as (opts1 & cmd1 & H1).
    destruct Hversion as (opts2 & cmd2 & H2).
    rewrite H1 in H2. apply tail4_inj in H2. discriminate H2.
Qed.

(** ** Paths *)



Lemma has_slash_append :
  forall a b : string, ends_with_slash a = true -> has_slash (a +++ b) = true.
Proof.
  unfold has_slash.
  induction a as [| c a IH]; intros b Hend; [discriminate |].
  destruct a as [| c' a'].
  - cbn in Hend. apply Ascii.eqb_eq in Hend. subst c. reflexivity.
  - change (existsb (Ascii.eqb "/")
                    (c :: list_ascii_of_string (String c' a' +++ b)) = true).
    cbn [existsb]. rewrite (IH b Hend). apply orb_true_r.
Qed.

Lemma basename_cons :
  forall (c : ascii) (rest : string),
    basename (String c rest)
    = if Ascii.eqb c "/" then basename rest
      else if has_slash rest then basename rest else String c rest.
Proof. reflexivity. Qed.

Lemma basename_after_slash :
  forall a b : string,
    has_slash b = false ->
    ends_with_slash a = true ->
    basename (a +++ b) = b.
Proof.
  intros a b Hb.
  assert (Hbase : basename b = b).
  { destruct b as [| c b]; [reflexivity |].
    unfold has_slash in Hb.
    change (existsb (Ascii.eqb "/") (c :: list_ascii_of_string b) = false) in Hb.
    cbn [existsb] in Hb.
    apply orb_false_elim in Hb. destruct Hb as [Hc Hrest].
    rewrite basename_cons, Ascii.eqb_sym, Hc.
    unfold has_slash. now rewrite Hrest. }
  induction a as [| c a IH]; intros Hend; [discriminate |].
  change (String c a +++ b) with (String c (a +++ b)).
  rewrite basename_cons.
  destruct a as [| c' a'].
  - cbn [ends_with_slash] in Hend. rewrite Hend. exact Hbase.
  - assert (Hend' : ends_with_slash (String c' a') = true) by exact Hend.
    specialize (IH Hend').
    destruct (Ascii.eqb c "/"); [exact IH |].
    rewrite (has_slash_append _ b Hend'). exact IH.
Qed.

Lemma ends_with_slash_append :
  forall a : string, ends_with_slash (a +++ "/") = true.
Proof.
  induction a as [| c a IH]; [reflexivity |].
  cbn [append ends_with_slash].
  destruct a as [| c' a']; [reflexivity | exact IH].
Qed.

Lemma append_assoc :
  forall a b c : string, (a +++ b) +++ c = a +++ (b +++ c).
Proof.
  induction a as [| x a IH]; intros b c; cbn; [reflexivity |].
  now rewrite IH.
Qed.

(** The base name of anything joined with [Dockerfile] is [Dockerfile]. *)
Lemma basename_path_join_Dockerfile :
  forall a : string, basename (path_join a "Dockerfile") = "Dockerfile".
Proof.
  intros a. unfold path_join. cbn [starts_with_slash Ascii.eqb].
  change (Ascii.eqb "D" "/") with false. cbv iota.
  destruct (String.eqb_spec a EmptyString) as [-> | Hne]; cbn [orb].
  - reflexivity.
  - destruct (ends_with_slash a) eqn:Hend.
    + apply basename_after_slash; [reflexivity | exact Hend].
    + change (a +++ "/" +++ "Dockerfile") with (a +++ ("/" +++ "Dockerfile")).
      rewrite <- append_assoc.
      apply basename_after_slash; [reflexivity | apply ends_with_slash_append].
Qed.

Lemma mem_head :
  forall (x : string) (l : list string), mem x (x :: l) = true.
Proof.
  intros x l. unfold mem. cbn. now rewrite String.eqb_refl.
Qed.


(** ** The container runner *)

Lemma read_file_write_other :
  forall fs path content other,
    other <> path ->
    read_file (write_file fs path content) other = read_file fs other.
Proof.
  intros fs path content other Hne. unfold write_file. cbn.
  apply String.eqb_neq in Hne. rewrite String.eqb_sym, Hne.
  induction fs as [| [p c] fs IH]; cbn; [reflexivity |].
  destruct (String.eqb_spec p path) as [-> | Hp]; cbn.
  - rewrite String.eqb_sym, Hne. exact IH.
  - destruct (String.eqb p other); [reflexivity | exact IH].
Qed.

Ltac split_run :=
  match goal with
  | H : ?c = _ |- context [if ?c then _ else _] => rewrite H; cbn
  | |- context [mem ?x (?x :: ?l)] => rewrite (mem_head x l); cbn
  | |- context [if negb ?c then _ else _] => destruct c eqn:?; cbn
  | |- context [if ?c then _ else _] => destruct c eqn:?; cbn
  | |- context [match read_file ?fs ?p with Some _ => _ | None => _ end] =>
      destruct (read_file fs p) eqn:?; cbn
  | |- context [exec ?a ?c ?e] =>
      let rc := fresh "returncode" in
      let e' := fresh "env_built" in
      destruct (exec a c e) as [rc e'] eqn:?; cbn
  | hook : M unit |- _ =>
      match goal with
      | |- context [hook ?x] => destruct (hook x) as [[? | ? |] ?] eqn:?; cbn
      end
  end.

Ltac prefix_of_length :=
  first [ exists 1%nat; cbn; rewrite <- ?app_assoc; split; [reflexivity |]
        | exists 2%nat; cbn; rewrite <- ?app_assoc; split; [reflexivity |]
        | exists 3%nat; cbn; rewrite <- ?app_assoc; split; [reflexivity |]
        | exists 4%nat; cbn; rewrite <- ?app_assoc; split; [reflexivity |]
        | exists 5%nat; cbn; rewrite <- ?app_assoc; split; [reflexivity |] ];
  intros; first [reflexivity | discriminate].

(** The calls of [docker_run] are always a prefix of the complete
    sequence, and all of it when the function returns. *)
Lemma docker_run_trace :
  forall build_dir log_path odoo_cmd container_name exposed_port cpu_limit
         preexec_fn (w : World),
    let r := docker_run build_dir log_path odoo_cmd container_name
                        exposed_port cpu_limit preexec_fn w in
    exists n,
      calls (snd r)
      = calls w ++
        firstn n (docker_run_calls (module_dir w) build_dir log_path odoo_cmd
                                   container_name exposed_port cpu_limit
                                   (match preexec_fn with
                                    | Some _ => true
                                    | None => false
                                    end)
                                   (lowest_fd (fds w)))
      /\ (forall child, fst r = Return child -> n = 5%nat).
Proof.
  intros. subst r. open_world w.
  unfold docker_run, bind, ret, logger_log, open_w, os_makedirs, dirname_file,
    shutil_copy, subprocess_run, subprocess_Popen, docker_run_calls, cwd_exists.
  cbn.
  repeat split_run; prefix_of_length.
Qed.

Lemma read_file_write_same :
  forall fs path content, read_file (write_file fs path content) path = Some content.
Proof.
  intros fs path content. unfold write_file. cbn.
  now rewrite String.eqb_refl.
Qed.

(** What the preparation of [docker_run] leaves behind when no hook is
    given: the [docker] directory, the recipe in it, and the child spawned
    in the world the finished build left. *)
Lemma docker_run_prepared :
  forall build_dir log_path odoo_cmd container_name exposed_port cpu_limit
         (w : World),
    let docker_dir := path_join build_dir "docker" in
    let recipe := path_join (path_join (module_dir w) "data") "Dockerfile" in
    let r := docker_run build_dir log_path odoo_cmd container_name
                        exposed_port cpu_limit None w in
    forall child,
      fst r = Return child ->
      mem docker_dir (dirs (snd r)) = true
      /\ (recipe <> log_path ->
          is_file (files w) recipe = true
          /\ read_file (files (snd r)) (path_join docker_dir "Dockerfile")
             = read_file (files w) recipe)
      /\ env (snd r)
         = spawned child
                   (docker_command build_dir container_name exposed_port
                                   cpu_limit (run_cmd odoo_cmd))
                   (snd (exec ["docker"; "build"; "--tag"; "odoo:runbot_tests"; "."]
                              (Some docker_dir) (env w))).
Proof.
  intros build_dir log_path odoo_cmd container_name exposed_port cpu_limit w
         docker_dir recipe r child.
  subst docker_dir recipe r. open_world w.
  unfold docker_run, bind, ret, logger_log, open_w, os_makedirs, dirname_file,
    shutil_copy, subprocess_run, subprocess_Popen, cwd_exists.
  cbn.
  repeat split_run; intros Hret; try discriminate Hret.
  all: inversion Hret; subst child.
  all: rewrite ?basename_path_join_Dockerfile, ?read_file_write_same.
  all: split; [assumption || reflexivity |].
  all: split; [| reflexivity].
  all: intros Hother.
  all: match goal with
       | H : read_file (write_file _ _ _) _ = Some _ |- _ =>
           rewrite (read_file_write_other _ _ Hother) in H;
           unfold is_file; rewrite H; split; reflexivity
       end.
Qed.

Lemma hd_docker_command :
  forall build_dir container_name exposed_port cpu_limit command,
    hd EmptyString
       (docker_command build_dir container_name exposed_port cpu_limit command)
    = "docker".
Proof.
  intros. destruct (docker_command_shape build_dir container_name exposed_port
                                         cpu_limit command) as [opts Hshape].
  rewrite Hshape. reflexivity.
Qed.


(** *** One step at a time *)

Lemma bind_Return :
  forall (A B : Type) (m : M A) (k : A -> M B) (w w1 : World) (a : A),
    m w = (Return a, w1) -> bind m k w = k a w1.
Proof.
  intros A B m k w w1 a Hm. unfold bind. now rewrite Hm.
Qed.

Lemma logger_log_ok :
  forall l message (w : World),
    logger_log l message w
    = (Return tt,
       set_stderr (stderr w ++ emit (logger w) (asctime (env w)) l message) w).
Proof. reflexivity. Qed.



Lemma os_makedirs_exists :
  forall path (w : World),
    mem path (dirs w) = true ->
    os_makedirs path true w
    = (Return tt, record_call (Call_makedirs path true) w).
Proof.
  intros path w Hdir. unfold os_makedirs. cbn. now rewrite Hdir.
Qed.

Lemma os_makedirs_creates :
  forall path exist_ok (w : World),
    mem path (dirs w) = false ->
    mem path (denied w) = false ->
    is_file (files w) path = false ->
    os_makedirs path exist_ok w
    = (Return tt,
       set_dirs (path :: dirs w) (record_call (Call_makedirs path exist_ok) w)).
Proof.
  intros path exist_ok w Hdir Hd Hf. unfold os_makedirs. cbn.
  now rewrite Hdir, Hd, Hf.
Qed.




Ltac step_by tac := erewrite bind_Return; [| tac].



Lemma In_firstn :
  forall (A : Type) (n : nat) (l : list A) (x : A),
    In x (firstn n l) -> In x l.
Proof.
  intros A n. induction n as [| n IH]; intros l x Hin; [contradiction |].
  destruct l as [| y l]; [contradiction |].
  cbn in Hin. destruct Hin as [-> | Hin]; [now left | right; now apply IH].
Qed.

(** C1.  For every token list [odoo_cmd] and every call of [docker_run],
    the command string that [docker_run] builds and hands to the container
    is, in this order, the change into the mounted build path, the install
    step that looks for [python3] in the first line of [odoo-bin] and falls
    back to [pip], and the payload tokens joined by single spaces, the
    three chained with [&&] into one shell string.  Every launch that
    [docker_run] issues with [Popen] carries exactly this string as the
    argument of [/bin/bash -c], at the end of its vector; and when
    [docker_run] returns, that launch is the last call it made. *)
Theorem docker_run_command_chain :
  forall build_dir log_path odoo_cmd container_name exposed_port cpu_limit
         preexec_fn (w : World),
    let r := docker_run build_dir log_path odoo_cmd container_name
                        exposed_port cpu_limit preexec_fn w in
    let command :=
      "cd /data/build" +++ " && " +++
      "head -1 odoo-bin | grep -q python3 && sudo pip3 install -r requirements.txt || sudo pip install -r requirements.txt"
      +++ " && " +++ String.concat " " odoo_cmd in
    (exists issued,
        calls (snd r) = calls w ++ issued
        /\ forall args out err hook close_fds,
            In (Call_Popen args out err hook close_fds) issued ->
            exists options, args = options ++ ["/bin/bash"; "-c"; command])
    /\ (forall child,
          fst r = Return child ->
          exists before options out err hook close_fds,
            calls (snd r)
            = calls w ++ before ++
              [Call_Popen (options ++ ["/bin/bash"; "-c"; command])
                          out err hook close_fds]).
Proof.
  intros build_dir log_path odoo_cmd container_name exposed_port cpu_limit
         preexec_fn w r command.
  destruct (docker_run_trace build_dir log_path odoo_cmd container_name
              exposed_port cpu_limit preexec_fn w) as (n & Hcalls & Hall).
  fold r in Hcalls, Hall.
  destruct (run_cmd_chain odoo_cmd) as [Hcmd Hlast].
  destruct (Hlast build_dir container_name exposed_port cpu_limit)
    as [options Hopt].
  assert (Hvec : docker_command build_dir container_name exposed_port
                                cpu_limit (run_cmd odoo_cmd)
                 = options ++ ["/bin/bash"; "-c"; command]).
  { rewrite Hopt. subst command. rewrite <- Hcmd. reflexivity. }
  clear Hopt. rename Hvec into Hopt.
  split.
  - eexists. split; [exact Hcalls |].
    intros args out err hook close_fds Hin.
    apply In_firstn in Hin. unfold docker_run_calls in Hin.
    cbn [In] in Hin.
    destruct Hin as [Hin | [Hin | [Hin | [Hin | [Hin | []]]]]];
      try discriminate Hin.
    inversion Hin; subst. exists options. exact Hopt.
  - intros child Hret. specialize (Hall child Hret). subst n.
    unfold docker_run_calls in Hcalls. cbn [firstn] in Hcalls.
    rewrite Hopt in Hcalls.
    eexists [_; _; _; _], options, _, _, _, _.
    exact Hcalls.
Qed.


(** C10.  The calls of [docker_run] are always an initial part of: open
    the log file, make the [docker] directory (if absent), copy the packaged
    [Dockerfile] into it, run [docker build --tag odoo:runbot_tests .] there
    and wait for it, spawn the container.  So whenever the container is
    spawned, the directory was made, the recipe copied and the image build
    run to its end just before, in every invocation; when the function
    returns (no hook given) the directory exists, it holds the recipe, and
    the container was spawned in the world the finished build left. *)
Theorem docker_run_rebuilds_image_before_launch :
  forall build_dir log_path odoo_cmd container_name exposed_port cpu_limit
         preexec_fn (w : World),
    let docker_dir := path_join build_dir "docker" in
    let recipe := path_join (path_join (module_dir w) "data") "Dockerfile" in
    let r := docker_run build_dir log_path odoo_cmd container_name
                        exposed_port cpu_limit preexec_fn w in
    (exists n,
        calls (snd r)
        = calls w ++
          firstn n (docker_run_calls (module_dir w) build_dir log_path odoo_cmd
                                     container_name exposed_port cpu_limit
                                     (match preexec_fn with
                                      | Some _ => true
                                      | None => false
                                      end)
                                     (lowest_fd (fds w)))
        /\ (forall child, fst r = Return child -> n = 5%nat))
    /\ (forall child,
          fst r = Return child ->
          preexec_fn = None ->
          mem docker_dir (dirs (snd r)) = true
          /\ (recipe <> log_path ->
              is_file (files w) recipe = true
              /\ read_file (files (snd r)) (path_join docker_dir "Dockerfile")
                 = read_file (files w) recipe)
          /\ env (snd r)
             = spawned child
                       (docker_command build_dir container_name exposed_port
                                       cpu_limit (run_cmd odoo_cmd))
                       (snd (exec ["docker"; "build"; "--tag";
                                   "odoo:runbot_tests"; "."]
                                  (Some docker_dir) (env w)))).
Proof.
  intros build_dir log_path odoo_cmd container_name exposed_port cpu_limit
         preexec_fn w docker_dir recipe r.
  split.
  - apply docker_run_trace.
  - intros child Hret Hhook. subst r preexec_fn.
    exact (@docker_run_prepared build_dir log_path odoo_cmd container_name
             exposed_port cpu_limit w child Hret).
Qed.

(** ** The image builder *)

Lemma docker_build_calls :
  forall docker_file_path (w : World),
    calls (snd (docker_build docker_file_path w))
    = calls w ++
      [Call_run ["docker"; "build"; "--tag"; "odoo:runbot_tests"] None false].
Proof.
  intros docker_file_path w. open_world w.
  unfold docker_build, bind, ret, logger_log, subprocess_run, cwd_exists. cbn.
  destruct (mem "docker" programs0); cbn; [| reflexivity].
  destruct (exec _ None env0) as [returncode e]. reflexivity.
Qed.

(** C5, on the code.  For every argument, [docker_build] makes one call
    only: [docker build --tag odoo:runbot_tests], with no build context and
    no working directory.  It makes no directory and copies no file (the
    file system is left as it was), it never looks at its argument, and it
    never raises [CalledProcessError]: a failed build goes unnoticed.  The
    copy of the recipe into [docker/] and the build from there are done by
    [docker_run] alone. *)
Theorem docker_build_only_runs_docker_build :
  forall docker_file_path (w : World),
    let r := docker_build docker_file_path w in
    calls (snd r)
    = calls w ++
      [Call_run ["docker"; "build"; "--tag"; "odoo:runbot_tests"] None false]
    /\ dirs (snd r) = dirs w
    /\ files (snd r) = files w
    /\ r = docker_build EmptyString w
    /\ (fst r = Return tt \/ fst r = Raise OSError).
Proof.
  intros docker_file_path w r. subst r.
  split; [apply docker_build_calls |].
  open_world w.
  unfold docker_build, bind, ret, logger_log, subprocess_run, cwd_exists. cbn.
  destruct (mem "docker" programs0); cbn; [| auto].
  destruct (exec _ None env0) as [returncode e]. cbn. auto.
Qed.

(** ** The self-test driver *)

Lemma bind_Raise :
  forall (A B : Type) (m : M A) (k : A -> M B) (w w1 : World) (e : exn),
    m w = (Raise e, w1) -> bind m k w = (Raise e, w1).
Proof.
  intros A B m k w w1 e Hm. unfold bind. now rewrite Hm.
Qed.

Lemma main_reaches_check :
  forall fuel script args (w : World),
    main fuel script args w
    = bind (if Z.of_nat (length (script :: args)) <? 5
            then bind (logger_log ERROR
                         ("Missing arguments: " +++ dquote
                          +++ nth 0 (script :: args) EmptyString
                          +++ " build_dir odoo_version odoo_port db_name"
                          +++ dquote))
                      (fun _ => sys_exit 1)
            else ret tt)
           (fun _ => self_test fuel (script :: args))
           (started w).
Proof.
  intros fuel script args w. unfold main.
  step_by ltac:(reflexivity).
  step_by ltac:(reflexivity).
  step_by ltac:(reflexivity).
  reflexivity.
Qed.

(** Whatever comes after the first directory is made, the record of calls
    of the self-test starts with that [makedirs]. *)
Lemma self_test_first_call :
  forall fuel sys_argv (w : World),
    exists rest,
      calls (snd (self_test fuel sys_argv w))
      = calls w ++
        Call_makedirs (path_join (nth 1 sys_argv EmptyString) "logs") true :: rest.
Proof.
  intros fuel sys_argv w. unfold self_test.
  set (first := os_makedirs (path_join (nth 1 sys_argv EmptyString) "logs") true).
  match goal with
  | |- context [bind first ?k] => set (rest_of_test := k)
  end.
  assert (Hrest : forall a, issues (fun _ => True) (rest_of_test a)).
  { intros a. subst rest_of_test.
    apply issues_weaken with (P := uses_image "odoo:runbot_tests"); [auto |].
    unfold fresh_container_name. module_calls. }
  pose proof (os_makedirs_calls (path_join (nth 1 sys_argv EmptyString) "logs")
                                true w) as Hfirst.
  fold first in Hfirst.
  unfold bind. destruct (first w) as [[u | e |] w1] eqn:Hrun; cbn in Hfirst.
  - destruct (rest_of_test u w1) as [r w2] eqn:Hthen.
    destruct (Hrest u _ _ _ Hthen) as (l & Hl & _).
    exists l. cbn. rewrite Hl, Hfirst, <- app_assoc. reflexivity.
  - exists []. exact Hfirst.
  - exists []. exact Hfirst.
Qed.

(** The handler the script added writes the last line of every record
    that the configured logger handles. *)
Lemma configured_emits_last :
  forall (lg : Logger) (time : string) (l : level) (message : string),
    exists earlier,
      emit (configured lg) time l message
      = earlier ++
        [format FormatAsctimeLevelNameMessage time (lg_name lg) l message].
Proof.
  intros lg time l message. unfold emit, configured, getEffectiveLevel. cbn.
  assert (Hlevel : (levelno l <? 10) = false) by (destruct l; reflexivity).
  assert (Hpass : (10 <=? levelno l) = true) by (destruct l; reflexivity).
  rewrite Hlevel, filter_app, map_app. cbn. rewrite Hpass. cbn.
  eexists. reflexivity.
Qed.

(** C8.  Run as a script with fewer than four arguments after its name,
    the module writes the [Missing arguments] record on the standard error
    stream (it is the last line there), raises [SystemExit(1)], so that the
    exit status is 1, and has called nothing.  With the four arguments (or
    more) it goes on to the scenarios: it is the self-test run in the world
    reached at the check, no error record written, and its first call makes
    [build_dir/logs]. *)
Theorem main_checks_arguments :
  forall fuel script args (w : World),
    ((length args < 4)%nat ->
     exists w',
       main fuel script args w = (Raise (SystemExit 1), w')
       /\ exit_status (fst (main fuel script args w)) = Some 1
       /\ calls w' = calls w
       /\ exists earlier,
            stderr w' = earlier ++ [missing_arguments_line w script])
    /\ ((4 <= length args)%nat ->
        main fuel script args w = self_test fuel (script :: args) (started w)
        /\ exists rest,
             calls (snd (main fuel script args w))
             = calls w ++
               Call_makedirs (path_join (nth 0 args EmptyString) "logs") true
               :: rest).
Proof.
  intros fuel script args w. rewrite main_reaches_check. split.
  - intros Hfew.
    assert (Hcheck : (Z.of_nat (length (script :: args)) <? 5) = true).
    { apply Z.ltb_lt. cbn [length]. lia. }
    rewrite Hcheck.
    eexists. split.
    + apply bind_Raise. step_by ltac:(apply logger_log_ok). reflexivity.
    + split.
      * erewrite bind_Raise;
          [| step_by ltac:(apply logger_log_ok); reflexivity].
        reflexivity.
      * split; [reflexivity |].
        unfold missing_arguments_line. cbn -[format configured].
        match goal with
        | |- context [emit (configured ?lg) ?t ERROR ?m] =>
            destruct (configured_emits_last lg t ERROR m) as [earlier Hlast];
            rewrite Hlast
        end.
        eexists. rewrite app_assoc. reflexivity.
  - intros Henough.
    assert (Hcheck : (Z.of_nat (length (script :: args)) <? 5) = false).
    { apply Z.ltb_ge. cbn [length]. lia. }
    rewrite Hcheck.
    assert (Hgo : bind (ret tt) (fun _ => self_test fuel (script :: args)) (started w)
                  = self_test fuel (script :: args) (started w)) by reflexivity.
    rewrite Hgo. split; [reflexivity |].
    destruct (self_test_first_call fuel (script :: args) (started w))
      as [rest Hfirst].
    exists rest. exact Hfirst.
Qed.

(** * Further properties of the module *)

(** ** Token boundaries in the in-container command *)

(** X1.  [odoo_cmd] is joined with spaces and nothing is quoted, so the command
    does not keep the boundaries of its tokens: a token with a space in it
    gives the same command as the two tokens around the space. *)
Theorem run_cmd_loses_token_boundaries :
  forall (x y : string) (rest : list string),
    run_cmd ((x +++ " " +++ y) :: rest) = run_cmd (x :: y :: rest)
    /\ forall build_dir container_name exposed_port cpu_limit,
        docker_command build_dir container_name exposed_port cpu_limit
                       (run_cmd ((x +++ " " +++ y) :: rest))
        = docker_command build_dir container_name exposed_port cpu_limit
                         (run_cmd (x :: y :: rest)).
Proof.
  intros x y rest.
  assert (Hjoin : String.concat " " ((x +++ " " +++ y) :: rest)
                  = String.concat " " (x :: y :: rest)).
  { destruct rest as [| z rest]; [reflexivity |].
    cbn [String.concat]. now rewrite !append_assoc. }
  assert (Hcmd : run_cmd ((x +++ " " +++ y) :: rest) = run_cmd (x :: y :: rest)).
  { unfold run_cmd, cmd_chain. now rewrite Hjoin. }
  split; [exact Hcmd |].
  intros. now rewrite Hcmd.
Qed.

(** ** The programs the module starts *)

Ltac docker_call :=
  match goal with
  | |- runs_docker (Call_Popen (docker_command ?b ?n ?p ?c ?cmd) _ _ _ _) =>
      let opts := fresh "opts" in
      let Hshape := fresh "Hshape" in
      destruct (docker_command_shape b n p c cmd) as [opts Hshape];
      rewrite Hshape; cbn; eexists _, _; split; [reflexivity | auto]
  | |- runs_docker (Call_run _ _ _) =>
      cbn; eexists _, _; split; [reflexivity | auto]
  | |- runs_docker _ => exact I
  end.

Lemma docker_run_runs_docker :
  forall build_dir log_path odoo_cmd container_name exposed_port cpu_limit preexec_fn,
    issues runs_docker
           (docker_run build_dir log_path odoo_cmd container_name
                       exposed_port cpu_limit preexec_fn).
Proof.
  intros. unfold docker_run. repeat step_calls; docker_call.
Qed.

Lemma docker_stop_runs_docker :
  forall container_name, issues runs_docker (docker_stop container_name).
Proof.
  intros. unfold docker_stop. repeat step_calls; docker_call.
Qed.

Lemma docker_build_runs_docker :
  forall docker_file_path, issues runs_docker (docker_build docker_file_path).
Proof.
  intros. unfold docker_build. repeat step_calls; docker_call.
Qed.

Lemma locked_runs_docker :
  forall filename, issues runs_docker (locked filename).
Proof.
  intros. unfold locked. repeat step_calls.
  all: try docker_call.
  destruct a; repeat step_calls; docker_call.
Qed.

Lemma wait_while_locked_runs_docker :
  forall fuel lock_path container_name,
    issues runs_docker (wait_while_locked fuel lock_path container_name).
Proof.
  induction fuel as [| fuel IH]; intros lock_path container_name; cbn.
  - apply issues_silent. reflexivity.
  - apply issues_bind; [apply locked_runs_docker |].
    intros [|]; [| apply issues_ret].
    repeat step_calls; try docker_call. apply IH.
Qed.

Ltac docker_calls :=
  repeat first
    [ apply docker_run_runs_docker
    | apply docker_stop_runs_docker
    | apply wait_while_locked_runs_docker
    | step_calls ];
  try docker_call.

Lemma self_test_runs_docker :
  forall fuel sys_argv, issues runs_docker (self_test fuel sys_argv).
Proof.
  intros. unfold self_test, fresh_container_name. docker_calls.
Qed.

(** X2.  Whatever its arguments and whatever happens, the module starts no
    program but the engine's client, as [docker build], [docker run] or
    [docker stop] with an explicit argument vector: [docker_run],
    [docker_stop], [docker_build] and the whole script. *)
Theorem module_only_runs_docker :
  (forall build_dir log_path odoo_cmd container_name exposed_port cpu_limit
          preexec_fn,
      issues runs_docker
             (docker_run build_dir log_path odoo_cmd container_name
                         exposed_port cpu_limit preexec_fn))
  /\ (forall container_name, issues runs_docker (docker_stop container_name))
  /\ (forall docker_file_path,
         issues runs_docker (docker_build docker_file_path))
  /\ (forall fuel script args, issues runs_docker (main fuel script args)).
Proof.
  split; [exact docker_run_runs_docker |].
  split; [exact docker_stop_runs_docker |].
  split; [exact docker_build_runs_docker |].
  intros fuel script args. unfold main.
  apply issues_bind; [docker_calls |]. intros _.
  apply issues_bind; [docker_calls |]. intros _.
  apply issues_bind; [docker_calls |]. intros _.
  apply issues_bind; [| intros _; apply self_test_runs_docker].
  destruct (Z.of_nat (length (script :: args)) <? 5); docker_calls.
Qed.

(** ** [docker_run]: the log file and the image build *)

(** X4.  When the log file cannot be opened for writing, [docker_run] raises
    [OSError] at once: the attempt to open it is its only call, nothing is
    built and nothing is launched, and the file system, the descriptors and
    the children are as before. *)
Theorem docker_run_unwritable_log :
  forall build_dir log_path odoo_cmd container_name exposed_port cpu_limit
         preexec_fn (w : World),
    (mem log_path (denied w) || mem log_path (dirs w))%bool = true ->
    let r := docker_run build_dir log_path odoo_cmd container_name
                        exposed_port cpu_limit preexec_fn w in
    fst r = Raise OSError
    /\ calls (snd r) = calls w ++ [Call_open log_path "w"]
    /\ dirs (snd r) = dirs w
    /\ files (snd r) = files w
    /\ fds (snd r) = fds w
    /\ children (snd r) = children w
    /\ env (snd r) = env w.
Proof.
  intros build_dir log_path odoo_cmd container_name exposed_port cpu_limit
         preexec_fn w Hopen r.
  subst r. open_world w. cbn in Hopen.
  unfold docker_run, bind, ret, logger_log, open_w.
  cbn. rewrite Hopen. cbn. auto 10.
Qed.

(** X5.  [docker_run] never looks at the exit status of the image build.
    With the engine's client installed, once the build was run the launch
    is issued too, whatever the build answered: a failed build is not
    reported and does not stop the launch.  [docker_run] never raises
    [CalledProcessError]. *)
Theorem docker_run_build_status_ignored :
  forall build_dir log_path odoo_cmd container_name exposed_port cpu_limit
         preexec_fn (w : World),
    mem "docker" (programs w) = true ->
    let r := docker_run build_dir log_path odoo_cmd container_name
                        exposed_port cpu_limit preexec_fn w in
    let build :=
      Call_run ["docker"; "build"; "--tag"; "odoo:runbot_tests"; "."]
               (Some (path_join build_dir "docker")) false in
    let launch :=
      docker_command build_dir container_name exposed_port cpu_limit
                     (run_cmd odoo_cmd) in
    (forall returncode cmd, fst r <> Raise (CalledProcessError returncode cmd))
    /\ exists issued,
         calls (snd r) = calls w ++ issued
         /\ (In build issued ->
             exists out err hook, In (Call_Popen launch out err hook false) issued).
Proof.
  intros build_dir log_path odoo_cmd container_name exposed_port cpu_limit
         preexec_fn w Hdocker r build launch.
  subst r build launch. open_world w. cbn in Hdocker.
  assert (Hclient : mem (hd EmptyString
                            (docker_command build_dir container_name
                               exposed_port cpu_limit (run_cmd odoo_cmd)))
                        programs0 = true)
    by now rewrite hd_docker_command.
  unfold docker_run, bind, ret, logger_log, open_w, os_makedirs, dirname_file,
    shutil_copy, subprocess_run, subprocess_Popen, cwd_exists.
  cbn.
  repeat split_run;
    try discriminate;
    (split; [intros; discriminate |]);
    eexists; (split; [rewrite <- ?app_assoc; cbn [app]; reflexivity |]);
    cbn [In]; intro Hin;
    repeat match goal with
           | H : _ \/ _ |- _ => destruct H
           | H : False |- _ => destruct H
           | H : Call_open _ _ = _ |- _ => discriminate H
           | H : Call_makedirs _ _ = _ |- _ => discriminate H
           | H : Call_copy _ _ = _ |- _ => discriminate H
           end;
    eauto 12.
Qed.





(** ** [docker_run] again on the same build directory *)



(** ** The lock file: [lock], [locked], [pfn] and the waiting loop *)

(** One probe, with everything it leaves behind. *)
Lemma locked_run :
  forall (path : string) (w : World),
    exists w',
      locked path w = (Return (openable w path && held_elsewhere w path)%bool, w')
      /\ fds w' = fds w /\ dirs w' = dirs w /\ denied w' = denied w
      /\ pid w' = pid w /\ env w' = env w /\ children w' = children w
      /\ stderr w' = stderr w
      /\ locks w' = (if openable w path then release w path else locks w)
      /\ files w'
         = (if (openable w path && negb (is_file (files w) path))%bool
            then write_file (files w) path EmptyString
            else files w)
      /\ exists l, calls w' = calls w ++ l /\ Forall not_a_sleep l.
Proof.
  intros path w. open_world w.
  unfold locked, bind, try_except, try_finally, except_OSError, ret,
    os_open, fcntl_lockf, os_close, held_elsewhere, release, openable.
  cbn.
  destruct (mem path denied0 || mem path dirs0)%bool eqn:Hden; cbn.
  - eexists. split; [reflexivity |]. cbn.
    repeat split; try reflexivity.
    eexists. split; [reflexivity |]. repeat constructor.
  - assert (Hfds : filter (fun e : Z * string => negb (fst e =? lowest_fd fds0)) fds0
                   = fds0)
      by exact (drop_fd_fresh fds0 (lowest_fd fds0) (lowest_fd_fresh fds0)).
    destruct (is_file files0 path); cbn; rewrite Z.eqb_refl; cbn;
      destruct (existsb _ locks0) eqn:Hheld; cbn; rewrite Z.eqb_refl; cbn;
      rewrite ?String.eqb_refl, ?Z.eqb_refl; cbn;
      eexists; (split; [reflexivity |]); cbn;
      rewrite <- !app_assoc; cbn;
      repeat split; try reflexivity; try exact Hfds;
      eexists; (split; [reflexivity |]); repeat constructor.
Qed.

Lemma existsb_filter_kept :
  forall (A : Type) (f g : A -> bool) (l : list A),
    (forall x, f x = true -> g x = true) ->
    existsb f (filter g l) = existsb f l.
Proof.
  intros A f g l Hfg. induction l as [| x l IH]; [reflexivity |].
  cbn. destruct (g x) eqn:Hg; cbn; rewrite IH; [reflexivity |].
  destruct (f x) eqn:Hf; [| reflexivity].
  rewrite (Hfg x Hf) in Hg. discriminate.
Qed.

(** Dropping locks of this process does not change what others hold. *)
Lemma held_elsewhere_own_dropped :
  forall (w w' : World) (own : string * Z -> bool) (q : string),
    pid w' = pid w -> env w' = env w ->
    locks w' = filter (fun e => negb (own e && (snd e =? pid w))%bool) (locks w) ->
    held_elsewhere w' q = held_elsewhere w q.
Proof.
  intros w w' own q Hpid Henv Hlocks. unfold held_elsewhere.
  rewrite Hpid, Henv, Hlocks. apply existsb_filter_kept.
  intros [p holder] Hheld. cbn in *.
  destruct (holder =? pid w); [| now rewrite andb_false_r].
  cbn in Hheld. now rewrite andb_false_r in Hheld.
Qed.

(** X8.  A probe can be repeated: it changes nothing another probe looks at.
    The second of two probes in a row gives the answer of the first, and
    what other processes hold on any file is the same before and after. *)
Theorem locked_probe_repeatable :
  forall (path : string) (w : World),
    let r1 := locked path w in
    let r2 := locked path (snd r1) in
    fst r2 = fst r1
    /\ (forall q, held_elsewhere (snd r1) q = held_elsewhere w q)
    /\ fds (snd r2) = fds w.
Proof.
  intros path w r1 r2.
  destruct (locked_run path w)
    as (w1 & Hrun1 & Hfds & Hdirs & Hden & Hpid & Henv & _ & _ & Hlocks & _).
  assert (Hheld : forall q, held_elsewhere w1 q = held_elsewhere w q).
  { intros q. destruct (openable w path).
    - apply held_elsewhere_own_dropped
        with (own := fun e => String.eqb (fst e) path); auto.
    - unfold held_elsewhere. now rewrite Hpid, Henv, Hlocks. }
  destruct (locked_run path w1) as (w2 & Hrun2 & Hfds2 & _).
  subst r2 r1. rewrite Hrun1. cbn [fst snd]. rewrite Hrun2. cbn [fst snd].
  split; [| split; [exact Hheld | congruence]].
  unfold openable. now rewrite Hdirs, Hden, Hheld.
Qed.

(** X9.  A probe creates the lock file when it is not there ([O_CREAT]), empty,
    and touches no file that exists; where the path cannot be opened, the
    files are left alone. *)
Theorem locked_creates_lock_file :
  forall (path : string) (w : World),
    let w' := snd (locked path w) in
    (openable w path = true -> is_file (files w') path = true)
    /\ (openable w path = true -> is_file (files w) path = false ->
        read_file (files w') path = Some EmptyString)
    /\ (forall other, is_file (files w) other = true ->
                      read_file (files w') other = read_file (files w) other)
    /\ (openable w path = false -> files w' = files w).
Proof.
  intros path w w'.
  destruct (locked_run path w)
    as (w1 & Hrun & _ & _ & _ & _ & _ & _ & _ & _ & Hfiles & _).
  subst w'. rewrite Hrun. cbn [snd]. rewrite Hfiles.
  repeat split.
  - intros Hopen. rewrite Hopen. cbn.
    destruct (is_file (files w) path) eqn:Hfile; cbn; [exact Hfile |].
    unfold is_file. now rewrite read_file_write_same.
  - intros Hopen Hnew. rewrite Hopen, Hnew. cbn. apply read_file_write_same.
  - intros other Hother.
    destruct (openable w path && negb (is_file (files w) path))%bool eqn:Hcreate;
      [| reflexivity].
    apply andb_prop in Hcreate. destruct Hcreate as [_ Hnew].
    apply negb_true_iff in Hnew.
    apply read_file_write_other. intros Heq. subst other. congruence.
  - intros Hclosed. now rewrite Hclosed.
Qed.

Lemma is_file_write_file :
  forall fs path content, is_file (write_file fs path content) path = true.
Proof.
  intros fs path content. unfold is_file. now rewrite read_file_write_same.
Qed.

(** [lock], case by case. *)
Lemma lock_run :
  forall (path : string) (w : World),
    exists w',
      lock path w
      = (if (openable w path && negb (held_elsewhere w path))%bool
         then Return tt else Raise OSError, w')
      /\ dirs w' = dirs w /\ denied w' = denied w
      /\ pid w' = pid w /\ env w' = env w
      /\ fds w'
         = (if openable w path
            then (lowest_fd (fds w), path) :: fds w else fds w)
      /\ locks w'
         = (if (openable w path && negb (held_elsewhere w path))%bool
            then (path, pid w) :: locks w else locks w)
      /\ (openable w path = true -> is_file (files w') path = true).
Proof.
  intros path w. open_world w.
  unfold lock, bind, ret, os_open, os_set_inheritable, fcntl_lockf,
    has_set_inheritable, held_elsewhere, openable.
  cbn.
  destruct (mem path denied0 || mem path dirs0)%bool eqn:Hden; cbn.
  - eexists. split; [reflexivity |]. cbn. repeat split; try reflexivity.
    discriminate.
  - destruct (is_file files0 path) eqn:Hfile; cbn;
      repeat (rewrite Z.eqb_refl; cbn);
      destruct (existsb _ locks0) eqn:Hheld; cbn;
      eexists; (split; [reflexivity |]); cbn;
      repeat split; try reflexivity; intros _;
      first [exact Hfile | apply is_file_write_file].
Qed.

(** X10.  [lock] succeeds exactly when the file can be opened and no other live
    process holds its lock; then the process holds the lock.  In every case
    where the file was opened the descriptor is left open, also when the
    lock could not be taken: [lock] never closes it. *)
Theorem lock_outcome :
  forall (path : string) (w : World),
    let r := lock path w in
    (fst r = Return tt
     <-> (openable w path = true /\ held_elsewhere w path = false))
    /\ (fst r = Return tt \/ fst r = Raise OSError)
    /\ (fst r = Return tt -> In (path, pid w) (locks (snd r)))
    /\ (fst r <> Return tt -> locks (snd r) = locks w)
    /\ (openable w path = true ->
        fds (snd r) = (lowest_fd (fds w), path) :: fds w)
    /\ (openable w path = false -> fds (snd r) = fds w).
Proof.
  intros path w r.
  destruct (lock_run path w)
    as (w' & Hrun & _ & _ & _ & _ & Hfds & Hlocks & _).
  subst r. rewrite Hrun. cbn [fst snd]. rewrite Hfds, Hlocks.
  destruct (openable w path), (held_elsewhere w path); cbn;
    repeat split; intros; auto; try discriminate; try tauto;
    try (destruct H; discriminate); try (now left); try contradiction.
Qed.

(** X11.  A lock taken by [lock] shows in the probe of any other process while
    the holder lives: there [locked] returns true. *)
Theorem lock_seen_by_other_process :
  forall (path : string) (w w' : World) (other : Z),
    lock path w = (Return tt, w') ->
    other <> pid w ->
    alive (env w) (pid w) = true ->
    fst (locked path (set_pid other w')) = Return true.
Proof.
  intros path w w' other Hlock Hother Halive.
  destruct (lock_run path w)
    as (w1 & Hrun & Hdirs & Hden & Hpid & Henv & _ & Hlocks & _).
  rewrite Hlock in Hrun.
  destruct (openable w path && negb (held_elsewhere w path))%bool eqn:Hok;
    [| discriminate].
  inversion Hrun; subst w1.
  apply andb_prop in Hok. destruct Hok as [Hopen _].
  destruct (locked_run path (set_pid other w')) as (w2 & Hprobe & _).
  rewrite Hprobe. cbn [fst]. f_equal.
  assert (Hopen' : openable (set_pid other w') path = true).
  { unfold openable in *. cbn. now rewrite Hdirs, Hden. }
  rewrite Hopen'. cbn.
  unfold held_elsewhere. cbn. rewrite Hlocks, Henv. cbn.
  rewrite String.eqb_refl, Halive.
  apply Z.eqb_neq in Hother. rewrite Z.eqb_sym, Hother. reflexivity.
Qed.

(** X12.  In the process that holds the lock the probe is no test: it returns
    false, and by closing its descriptor of the file it drops the lock the
    process held. *)
Theorem locked_in_holder_drops_lock :
  forall (path : string) (w w' : World),
    lock path w = (Return tt, w') ->
    let r := locked path w' in
    fst r = Return false
    /\ ~ In (path, pid w) (locks (snd r)).
Proof.
  intros path w w' Hlock r.
  destruct (lock_run path w)
    as (w1 & Hrun & Hdirs & Hden & Hpid & Henv & _ & Hlocks & _).
  rewrite Hlock in Hrun.
  destruct (openable w path && negb (held_elsewhere w path))%bool eqn:Hok;
    [| discriminate].
  inversion Hrun; subst w1.
  apply andb_prop in Hok. destruct Hok as [Hopen Hfree].
  apply negb_true_iff in Hfree.
  destruct (locked_run path w')
    as (w2 & Hprobe & _ & _ & _ & _ & _ & _ & _ & Hlocks2 & _).
  assert (Hopen' : openable w' path = true).
  { unfold openable in *. now rewrite Hdirs, Hden. }
  subst r. rewrite Hprobe. cbn [fst snd]. rewrite Hlocks2, Hopen'. cbn.
  split.
  - f_equal. unfold held_elsewhere in *. rewrite Hlocks, Hpid, Henv. cbn.
    rewrite Z.eqb_refl. cbn. rewrite andb_false_r. exact Hfree.
  - unfold release. rewrite Hpid. intros Hin.
    apply filter_In in Hin. destruct Hin as [_ Hkeep]. cbn in Hkeep.
    now rewrite String.eqb_refl, Z.eqb_refl in Hkeep.
Qed.

(** X13.  The waiting loop never raises: it returns, or the probes allowed were
    all used up.  When the first probe finds the file not locked, or cannot
    open it, the loop returns at once: it does not sleep, writes no record,
    and no time passes. *)
Theorem wait_while_locked_outcome :
  forall (fuel : nat) (lock_path container_name : string) (w : World),
    let r := wait_while_locked fuel lock_path container_name w in
    (fst r = Return tt \/ fst r = OutOfFuel)
    /\ ((0 < fuel)%nat ->
        (openable w lock_path && held_elsewhere w lock_path)%bool = false ->
        fst r = Return tt
        /\ env (snd r) = env w
        /\ stderr (snd r) = stderr w
        /\ exists l, calls (snd r) = calls w ++ l /\ Forall not_a_sleep l).
Proof.
  intros fuel lock_path container_name w r. subst r. split.
  - revert w. induction fuel as [| fuel IH]; intros w; cbn.
    + now right.
    + destruct (locked_run lock_path w) as (w1 & Hrun & _).
      step_by ltac:(exact Hrun). cbv beta.
      destruct (openable w lock_path && held_elsewhere w lock_path)%bool;
        [| now left].
      step_by ltac:(reflexivity).
      step_by ltac:(apply logger_log_ok).
      apply IH.
  - intros Hfuel Hfree. destruct fuel as [| fuel]; [lia |]. cbn.
    destruct (locked_run lock_path w)
      as (w1 & Hrun & _ & _ & _ & _ & Henv & _ & Hstderr & _ & _ & Hcalls).
    step_by ltac:(exact Hrun). rewrite Hfree. cbn. auto.
Qed.

(** X14.  The hook of the self-test, in the child: when it returns, the child
    holds the lock on the lock file, and of the descriptors it inherited
    those from 3 up to [SC_OPEN_MAX] are closed; the descriptor of the
    lock file is the one it opened since.  It returns exactly when the file
    can be opened and no other live process holds the lock, and raises
    [OSError] otherwise. *)
Theorem pfn_outcome :
  forall (lock_path : string) (w : World),
    let r := pfn lock_path w in
    let inherited :=
      filter (fun e => negb ((3 <=? fst e) && (fst e <? open_max w))%bool) (fds w) in
    (fst r = Return tt
     <-> (openable w lock_path = true /\ held_elsewhere w lock_path = false))
    /\ (fst r = Return tt \/ fst r = Raise OSError)
    /\ (fst r = Return tt ->
        In (lock_path, pid w) (locks (snd r))
        /\ fds (snd r) = (lowest_fd inherited, lock_path) :: inherited).
Proof.
  intros lock_path w r inherited. subst r.
  unfold pfn.
  step_by ltac:(reflexivity).
  step_by ltac:(reflexivity).
  step_by ltac:(reflexivity).
  match goal with
  | |- context [lock lock_path ?x] => set (w2 := x)
  end.
  assert (Hopen : openable w2 lock_path = openable w lock_path) by reflexivity.
  assert (Hheld : held_elsewhere w2 lock_path = held_elsewhere w lock_path).
  { apply held_elsewhere_own_dropped
      with (own := fun e =>
                     mem (fst e)
                         (map snd
                              (filter (fun e => ((3 <=? fst e)
                                                 && (fst e <? open_max w))%bool)
                                      (fds w))));
      reflexivity. }
  assert (Hfds : fds w2 = inherited) by reflexivity.
  assert (Hpid : pid w2 = pid w) by reflexivity.
  destruct (lock_run lock_path w2)
    as (w' & Hrun & _ & _ & _ & _ & Hfds' & Hlocks & _).
  rewrite Hrun. cbn [fst snd]. rewrite Hfds', Hlocks, Hopen, Hheld, Hfds, Hpid.
  destruct (openable w lock_path), (held_elsewhere w lock_path); cbn;
    repeat split; intros; auto; try discriminate; try tauto;
    try (destruct H; discriminate); try (now left).
Qed.

(** ** The script without the engine's client *)

(** A directory that is there or can be made: [makedirs] goes through,
    and touches nothing but the directories. *)
Lemma os_makedirs_ok :
  forall path (w : World),
    (mem path (dirs w) = true
     \/ (mem path (denied w) = false /\ is_file (files w) path = false)) ->
    exists w',
      os_makedirs path true w = (Return tt, w')
      /\ calls w' = calls w ++ [Call_makedirs path true]
      /\ stderr w' = stderr w /\ programs w' = programs w
      /\ children w' = children w /\ denied w' = denied w
      /\ files w' = files w /\ logger w' = logger w /\ env w' = env w
      /\ (forall p, mem p (dirs w) = true -> mem p (dirs w') = true).
Proof.
  intros path w Hok.
  destruct (mem path (dirs w)) eqn:Hthere.
  - eexists. split; [apply os_makedirs_exists; exact Hthere |].
    cbn. auto 12.
  - destruct Hok as [Habs | [Hd Hf]]; [discriminate |].
    eexists. split; [apply os_makedirs_creates; assumption |].
    cbn. repeat split; try reflexivity.
    intros p Hp. unfold mem in *. cbn. rewrite Hp. apply orb_true_r.
Qed.

Lemma docker_stop_without_client :
  forall container_name (w : World),
    mem "docker" (programs w) = false ->
    exists w',
      docker_stop container_name w = (Raise OSError, w')
      /\ calls w' = calls w ++ [Call_run ["docker"; "stop"; container_name] None true]
      /\ stderr w'
         = stderr w ++
           emit (logger w) (asctime (env w)) INFO
                ("Stopping container " +++ container_name)
      /\ children w' = children w.
Proof.
  intros container_name w Hmissing. open_world w. cbn in Hmissing.
  unfold docker_stop, bind, logger_log, subprocess_run, cwd_exists. cbn.
  rewrite Hmissing. cbn. eexists. split; [reflexivity |]. cbn. auto.
Qed.

(** X15.  Without the [docker] program on the search path the script, given its
    four arguments and a build directory in which [logs] and [datadir] are
    there or can be made, stops in its first scenario: the two directories
    are made, [docker stop] of the made-up name is the third and last call,
    and the [OSError] of the missing program leaves the script, since the
    handler there only catches [CalledProcessError].  The record
    [Expected Docker stop failure] is not written, nothing is asked of the
    host after that, no container is launched, and the exit status is 1. *)
Theorem main_without_docker_client :
  forall fuel script args (w : World),
    (4 <= length args)%nat ->
    mem "docker" (programs w) = false ->
    let build_dir := nth 0 args EmptyString in
    let logs := path_join build_dir "logs" in
    let datadir := path_join build_dir "datadir" in
    (mem logs (dirs w) = true
     \/ (mem logs (denied w) = false /\ is_file (files w) logs = false)) ->
    (mem datadir (dirs w) = true
     \/ (mem datadir (denied w) = false /\ is_file (files w) datadir = false)) ->
    let r := main fuel script args w in
    let lg := configured (logger w) in
    let now := asctime (env w) in
    fst r = Raise OSError
    /\ exit_status (fst r) = Some 1
    /\ calls (snd r)
       = calls w ++
         [Call_makedirs logs true; Call_makedirs datadir true;
          Call_run ["docker"; "stop"; "xyxyxyxyxy"] None true]
    /\ stderr (snd r)
       = stderr w ++
         emit lg now INFO "Start container tests" ++
         emit lg now INFO "Test killing an non existing container" ++
         emit lg now INFO "Stopping container xyxyxyxyxy"
    /\ children (snd r) = children w.
Proof.
  intros fuel script args w Henough Hmissing build_dir logs datadir Hlogs Hdata
         r lg now.
  subst r.
  rewrite main_reaches_check.
  assert (Hcheck : (Z.of_nat (length (script :: args)) <? 5) = false).
  { apply Z.ltb_ge. cbn [length]. lia. }
  rewrite Hcheck.
  assert (Hgo : bind (ret tt) (fun _ => self_test fuel (script :: args)) (started w)
                = self_test fuel (script :: args) (started w)) by reflexivity.
  rewrite Hgo. clear Hgo.
  unfold self_test.
  change (nth 1 (script :: args) EmptyString) with build_dir.
  fold logs. fold datadir.
  destruct (os_makedirs_ok logs (started w) Hlogs)
    as (w1 & Hmk1 & Hc1 & He1 & Hp1 & Hch1 & Hd1 & Hf1 & Hl1 & Hv1 & Hdirs1).
  step_by ltac:(exact Hmk1).
  assert (Hdata1 : mem datadir (dirs w1) = true
                   \/ (mem datadir (denied w1) = false
                       /\ is_file (files w1) datadir = false)).
  { destruct Hdata as [Hthere | Hmake].
    - left. apply Hdirs1. exact Hthere.
    - right. rewrite Hd1, Hf1. exact Hmake. }
  destruct (os_makedirs_ok datadir w1 Hdata1)
    as (w2 & Hmk2 & Hc2 & He2 & Hp2 & Hch2 & Hd2 & Hf2 & Hl2 & Hv2 & _).
  step_by ltac:(exact Hmk2).
  step_by ltac:(apply logger_log_ok).
  match goal with
  | |- context [bind _ _ ?x] => set (w3 := x)
  end.
  assert (Hmissing3 : mem "docker" (programs w3) = false).
  { subst w3. cbn. rewrite Hp2, Hp1. exact Hmissing. }
  destruct (docker_stop_without_client "xyxyxyxyxy" w3 Hmissing3)
    as (w4 & Hrun & Hc4 & He4 & Hch4).
  assert (Hguard :
            try_except (docker_stop "xyxyxyxyxy")
                       (except_CalledProcessError
                          (logger_log WARNING "Expected Docker stop failure")) w3
            = (Raise OSError, w4)).
  { unfold try_except. now rewrite Hrun. }
  erewrite bind_Raise by exact Hguard.
  cbn [fst snd exit_status].
  rewrite Hc4, He4, Hch4. subst w3. cbn.
  rewrite Hc2, Hc1, He2, He1, Hch2, Hch1, Hl2, Hl1, Hv2, Hv1. cbn.
  rewrite <- !app_assoc. cbn.
  repeat split; reflexivity.
Qed.

End Properties.

(** * The properties on a concrete host *)

Lemma locked_probe_witness :
  exists w',
    @locked HostEnvironment "/var/lock/other.lock" sample_world = (Return true, w')
    /\ fds w' = fds sample_world.
Proof.
  destruct (@locked_probe HostEnvironment "/var/lock/other.lock" sample_world)
    as (w' & Hrun & _ & Hfds & _).
  exists w'. split; [exact Hrun | exact Hfds].
Defined.

Lemma docker_stop_raises_iff_stop_fails_witness :
  (exists rc w',
     @docker_stop HostEnvironment "xyxyxyxyxy" sample_world
     = (Raise (CalledProcessError rc ["docker"; "stop"; "xyxyxyxyxy"]), w')
     /\ rc <> 0)
  /\ (exists w',
        @docker_stop HostEnvironment "t1" sample_world = (Return tt, w')
        /\ container_running (env w') "t1" = false).
Proof.
  split.
  - exact (proj1 (proj2 (@docker_stop_raises_iff_stop_fails
                           HostEnvironment "xyxyxyxyxy" sample_world)
                        host_stop_contract eq_refl) eq_refl).
  - exact (proj2 (proj2 (@docker_stop_raises_iff_stop_fails
                           HostEnvironment "t1" sample_world)
                        host_stop_contract eq_refl) eq_refl).
Defined.


Lemma docker_run_command_chain_witness :
  let r := @docker_run HostEnvironment "/tmp/b" "/tmp/b/logs/l.txt"
             ["echo"; "hi"] "t2" PyNone PyNone None sample_world in
  exists before options out err hook close_fds,
    calls (snd r)
    = calls sample_world ++ before ++
      [Call_Popen
         (options ++
          ["/bin/bash"; "-c";
           "cd /data/build && head -1 odoo-bin | grep -q python3 && sudo pip3 install -r requirements.txt || sudo pip install -r requirements.txt && echo hi"])
         out err hook close_fds].
Proof.
  intro r.
  pose proof (@docker_run_command_chain HostEnvironment "/tmp/b"
                "/tmp/b/logs/l.txt" ["echo"; "hi"] "t2" PyNone PyNone None
                sample_world) as H.
  cbv zeta in H. destruct H as [_ Hlast].
  assert (Hret : fst r = Return 101) by (vm_compute; reflexivity).
  exact (Hlast 101 Hret).
Defined.


Lemma docker_run_rebuilds_image_before_launch_witness :
  let r := @docker_run HostEnvironment "/tmp/b" "/tmp/b/logs/l.txt"
             ["echo"; "hi"] "t2" PyNone PyNone None sample_world in
  mem "/tmp/b/docker" (dirs (snd r)) = true
  /\ read_file (files (snd r)) "/tmp/b/docker/Dockerfile"
     = Some "FROM ubuntu:xenial".
Proof.
  intro r.
  pose proof (@docker_run_rebuilds_image_before_launch HostEnvironment "/tmp/b"
                "/tmp/b/logs/l.txt" ["echo"; "hi"] "t2" PyNone PyNone None
                sample_world) as H.
  cbv zeta in H. destruct H as [_ Hprepared].
  assert (Hret : fst r = Return 101) by (vm_compute; reflexivity).
  destruct (Hprepared 101 Hret eq_refl) as (Hdir & Hrecipe & _).
  split; [exact Hdir |].
  assert (Hother : path_join (path_join (module_dir sample_world) "data") "Dockerfile"
                   <> "/tmp/b/logs/l.txt").
  { intro Heq. vm_compute in Heq. discriminate Heq. }
  exact (proj2 (Hrecipe Hother)).
Defined.

Lemma main_checks_arguments_witness :
  (exists w',
      @main HostEnvironment 0 "container.py" ["/tmp/b"] sample_world
      = (Raise (SystemExit 1), w')
      /\ calls w' = [])
  /\ @main HostEnvironment 3 "container.py" ["/tmp/b"; "12.0"; "8070"; "db"]
           sample_world
     = @self_test HostEnvironment 3
         ["container.py"; "/tmp/b"; "12.0"; "8070"; "db"] (started sample_world).
Proof.
  split.
  - destruct (proj1 (@main_checks_arguments HostEnvironment 0 "container.py"
                       ["/tmp/b"] sample_world))
      as (w' & Hrun & _ & Hcalls & _).
    + cbn. lia.
    + exists w'. split; [exact Hrun | exact Hcalls].
  - refine (proj1 (proj2 (@main_checks_arguments HostEnvironment 3 "container.py"
                            ["/tmp/b"; "12.0"; "8070"; "db"] sample_world) _)).
    cbn. lia.
Defined.

Lemma every_build_and_launch_uses_fixed_tag_witness :
  ~ uses_image "odoo:tests-12.0"
      (Call_run ["docker"; "build"; "--tag"; "odoo:runbot_tests"; "."]
                (Some "/tmp/b/docker") false).
Proof.
  refine (proj2 (proj2 (proj2 (@every_build_and_launch_uses_fixed_tag
                                 HostEnvironment)))
                "12.0"
                (Call_run ["docker"; "build"; "--tag"; "odoo:runbot_tests"; "."]
                          (Some "/tmp/b/docker") false)
                eq_refl _).
  simpl. intros _ _. eexists. reflexivity.
Defined.

(** ** The module run on the concrete host *)

(** [docker_run] with [exposed_port=0]: the calls, with a launch that
    publishes no port. *)
Example docker_run_port_zero :
  calls (snd (@docker_run HostEnvironment "/tmp/b" "/tmp/b/logs/l.txt"
                ["echo"; "hi"] "t1" (PyInt 0) PyNone None sample_world))
  = [ Call_open "/tmp/b/logs/l.txt" "w";
      Call_makedirs "/tmp/b/docker" true;
      Call_copy "/opt/runbot/data/Dockerfile" "/tmp/b/docker";
      Call_run ["docker"; "build"; "--tag"; "odoo:runbot_tests"; "."]
               (Some "/tmp/b/docker") false;
      Call_Popen
        [ "docker"; "run"; "--rm"; "--name"; "t1";
          "--volume=/var/run/postgresql:/var/run/postgresql";
          "--volume=/tmp/b:/data/build";
          "odoo:runbot_tests"; "/bin/bash"; "-c";
          "cd /data/build && head -1 odoo-bin | grep -q python3 && sudo pip3 install -r requirements.txt || sudo pip install -r requirements.txt && echo hi" ]
        3 3 false false ].
Proof. vm_compute. reflexivity. Qed.

(** [docker_build("/tmp/b")]: one call, and the file system untouched. *)
Example docker_build_sample :
  let r := @docker_build HostEnvironment "/tmp/b" sample_world in
  fst r = Return tt
  /\ calls (snd r)
     = [Call_run ["docker"; "build"; "--tag"; "odoo:runbot_tests"] None false]
  /\ mem "/tmp/b/docker" (dirs (snd r)) = false
  /\ is_file (files (snd r)) "/tmp/b/docker/Dockerfile" = false.
Proof. vm_compute. repeat split; reflexivity. Qed.

(** The self-test with its four arguments, run to its end on the host. *)
Example main_sample :
  let r := @main HostEnvironment 3 "container.py"
             ["/tmp/b"; "12.0"; "8070"; "db"] sample_world in
  fst r = Return tt
  /\ exit_status (fst r) = Some 0
  /\ length (calls (snd r)) = 29%nat.
Proof. vm_compute. repeat split; reflexivity. Qed.

(** ** The further properties on the concrete host *)

Lemma docker_run_unwritable_log_witness :
  let r := @docker_run HostEnvironment "/tmp/b" "/proc/locked"
             ["echo"; "hi"] "t2" PyNone PyNone None sample_world in
  fst r = Raise OSError
  /\ calls (snd r) = [Call_open "/proc/locked" "w"].
Proof.
  intro r.
  destruct (@docker_run_unwritable_log HostEnvironment "/tmp/b" "/proc/locked"
              ["echo"; "hi"] "t2" PyNone PyNone None sample_world eq_refl)
    as (Hraise & Hcalls & _).
  split; [exact Hraise | exact Hcalls].
Defined.

Lemma docker_run_build_status_ignored_witness :
  let build := ["docker"; "build"; "--tag"; "odoo:runbot_tests"; "."] in
  let r := @docker_run FailingBuildEnvironment "/tmp/b" "/tmp/b/logs/l.txt"
             ["echo"; "hi"] "t2" PyNone PyNone None failing_build_world in
  fst (@exec FailingBuildEnvironment build (Some "/tmp/b/docker")
             (env failing_build_world)) = 1
  /\ fst r = Return 101
  /\ In (Call_run build (Some "/tmp/b/docker") false) (calls (snd r))
  /\ exists out err hook,
       In (Call_Popen (docker_command "/tmp/b" "t2" PyNone PyNone
                                      (run_cmd ["echo"; "hi"]))
                      out err hook false)
          (calls (snd r)).
Proof.
  intros build r.
  split; [reflexivity |].
  split; [vm_compute; reflexivity |].
  assert (Hbuilt : In (Call_run build (Some "/tmp/b/docker") false) (calls (snd r)))
    by (vm_compute; do 3 right; left; reflexivity).
  split; [exact Hbuilt |].
  destruct (@docker_run_build_status_ignored FailingBuildEnvironment "/tmp/b"
              "/tmp/b/logs/l.txt" ["echo"; "hi"] "t2" PyNone PyNone None
              failing_build_world eq_refl)
    as (_ & issued & Hcalls & Hlaunch).
  change (calls (snd r) = issued) in Hcalls.
  rewrite Hcalls. apply Hlaunch. rewrite <- Hcalls. exact Hbuilt.
Defined.



Lemma locked_creates_lock_file_witness :
  read_file (files (snd (@locked HostEnvironment "/tmp/b/logs/lock.txt"
                           sample_world)))
            "/tmp/b/logs/lock.txt" = Some EmptyString.
Proof.
  exact (proj1 (proj2 (@locked_creates_lock_file HostEnvironment
                         "/tmp/b/logs/lock.txt" sample_world))
               eq_refl eq_refl).
Defined.

Lemma lock_outcome_witness :
  In ("/tmp/b/logs/lock.txt", 100)
     (locks (snd (@lock HostEnvironment "/tmp/b/logs/lock.txt" sample_world)))
  /\ fst (@lock HostEnvironment "/var/lock/other.lock" sample_world)
     = Raise OSError.
Proof.
  split.
  - exact (proj1 (proj2 (proj2 (@lock_outcome HostEnvironment
                                  "/tmp/b/logs/lock.txt" sample_world)))
                 eq_refl).
  - destruct (proj1 (proj2 (@lock_outcome HostEnvironment
                              "/var/lock/other.lock" sample_world)))
      as [Hret | Hraise]; [| exact Hraise].
    vm_compute in Hret. discriminate Hret.
Defined.

Lemma run_Return :
  forall (E : Environment) (A : Type) (m : @M E A) (w : World) (a : A),
    fst (m w) = Return a -> m w = (Return a, snd (m w)).
Proof.
  intros E A m w a Hfst. destruct (m w) as [o w']. cbn in *. now subst o.
Defined.

Lemma lock_seen_by_other_process_witness :
  fst (@locked HostEnvironment "/tmp/b/logs/lock.txt"
         (set_pid 200 (snd (@lock HostEnvironment "/tmp/b/logs/lock.txt"
                              sample_world))))
  = Return true.
Proof.
  assert (Hlock : fst (@lock HostEnvironment "/tmp/b/logs/lock.txt" sample_world)
                  = Return tt) by (vm_compute; reflexivity).
  refine (@lock_seen_by_other_process HostEnvironment "/tmp/b/logs/lock.txt"
            sample_world _ 200 (run_Return _ _ Hlock) _ eq_refl).
  intro Heq. vm_compute in Heq. discriminate Heq.
Defined.

Lemma locked_in_holder_drops_lock_witness :
  let r := @locked HostEnvironment "/tmp/b/logs/lock.txt"
             (snd (@lock HostEnvironment "/tmp/b/logs/lock.txt" sample_world)) in
  fst r = Return false
  /\ ~ In ("/tmp/b/logs/lock.txt", 100) (locks (snd r)).
Proof.
  assert (Hlock : fst (@lock HostEnvironment "/tmp/b/logs/lock.txt" sample_world)
                  = Return tt) by (vm_compute; reflexivity).
  exact (@locked_in_holder_drops_lock HostEnvironment "/tmp/b/logs/lock.txt"
           sample_world _ (run_Return _ _ Hlock)).
Defined.

Lemma wait_while_locked_outcome_witness :
  let r := @wait_while_locked HostEnvironment 1 "/tmp/b/logs/lock.txt" "t2"
             sample_world in
  fst r = Return tt /\ env (snd r) = env sample_world.
Proof.
  intro r.
  destruct (proj2 (@wait_while_locked_outcome HostEnvironment 1
                     "/tmp/b/logs/lock.txt" "t2" sample_world))
    as (Hret & Henv & _).
  - lia.
  - reflexivity.
  - split; [exact Hret | exact Henv].
Defined.

Lemma pfn_outcome_witness :
  let r := @pfn HostEnvironment "/tmp/b/logs/lock.txt" sample_world in
  In ("/tmp/b/logs/lock.txt", 100) (locks (snd r))
  /\ fds (snd r)
     = [(3, "/tmp/b/logs/lock.txt"); (0, "/dev/stdin"); (1, "/dev/stdout");
        (2, "/dev/stderr")].
Proof.
  intro r.
  pose proof (@pfn_outcome HostEnvironment "/tmp/b/logs/lock.txt" sample_world)
    as H.
  cbv zeta in H. destruct H as (Hiff & _ & Hpost).
  destruct (Hpost (proj2 Hiff (conj eq_refl eq_refl))) as [Hlock Hfds].
  split; [exact Hlock | exact Hfds].
Defined.

Lemma main_without_docker_client_witness :
  let r := @main HostEnvironment 3 "container.py"
             ["/tmp/b"; "12.0"; "8070"; "db"] bare_world in
  fst r = Raise OSError
  /\ exit_status (fst r) = Some 1
  /\ calls (snd r)
     = [Call_makedirs "/tmp/b/logs" true; Call_makedirs "/tmp/b/datadir" true;
        Call_run ["docker"; "stop"; "xyxyxyxyxy"] None true]
  /\ stderr (snd r)
     = ["2018-06-01 12:00:00,000 INFO __main__: Start container tests";
        "2018-06-01 12:00:00,000 INFO __main__: Test killing an non existing container";
        "2018-06-01 12:00:00,000 INFO __main__: Stopping container xyxyxyxyxy"].
Proof.
  intro r.
  assert (Hlen : (4 <= length ["/tmp/b"; "12.0"; "8070"; "db"])%nat)
    by (cbn; lia).
  pose proof (@main_without_docker_client HostEnvironment 3 "container.py"
                ["/tmp/b"; "12.0"; "8070"; "db"] bare_world Hlen eq_refl) as H.
  cbv zeta in H.
  destruct (H (or_introl eq_refl) (or_intror (conj eq_refl eq_refl)))
    as (Hraise & Hexit & Hcalls & Hstderr & _).
  split; [exact Hraise |]. split; [exact Hexit |].
  split; [exact Hcalls | exact Hstderr].
Defined.
